(** * TxVoc backend ([backend/main.py]): voice registry, synthesis jobs and
      artifact server, embedded as state-passing functions.

    The service keeps two process-wide dictionaries ([voices_db],
    [synthesis_cache]) and a storage tree on disk.  Every route handler is
    translated into a computation of the monad [M] below, which threads the
    whole [World] (both dictionaries, the file system, the entropy source
    behind [uuid.uuid4] and the clock behind [datetime.now]) and may raise
    an exception.

    Outside the model: logging, which touches none of this state; the
    interleaving of concurrent requests (one handler runs at a time); what
    Starlette does with a response once the handler has returned it (a
    [FileResponse] whose path cannot be sent is answered 500 at that
    stage); the parsing of a request into the typed arguments of its
    handler. *)

From Stdlib Require Import Floats Uint63 ZArith NArith Ascii String List Bool Lia.
From stdpp Require Import gmap strings list.

Local Open Scope string_scope.
#[local] Set Warnings "-inexact-float".

(** ** Python [str]

    A [str] is modelled by Rocq's [string]; a character is a code point
    below 256, so [String.length] is Python's [len]. *)

Module PyStr.

(** One character of [str.lower()], restricted to code points below 256:
    [A]..[Z] and the Latin-1 capitals U+00C0..U+00DE (U+00D7, the
    multiplication sign, excepted) move up by 32. *)
Definition lower_char (c : ascii) : ascii :=
  let n := nat_of_ascii c in
  if ((65 <=? n) && (n <=? 90)
      || (192 <=? n) && (n <=? 222) && negb (n =? 215))%nat
  then ascii_of_nat (n + 32) else c.

(** [s.lower()] *)
Fixpoint lower (s : string) : string :=
  match s with
  | EmptyString => EmptyString
  | String c s' => String (lower_char c) (lower s')
  end.

Definition is_slash (c : ascii) : bool := Ascii.eqb c "/".
Definition is_dot (c : ascii) : bool := Ascii.eqb c ".".
Definition not_slash (c : ascii) : bool := negb (is_slash c).

(** [s.split('/')]: never the empty list. *)
Fixpoint split_slash (s : string) : list string :=
  match s with
  | EmptyString => [EmptyString]
  | String c s' =>
      if is_slash c then EmptyString :: split_slash s'
      else match split_slash s' with
           | h :: t => String c h :: t
           | [] => [String c EmptyString]
           end
  end.

(** ['/'.join(l)] *)
Fixpoint join_slash (l : list string) : string :=
  match l with
  | [] => EmptyString
  | [s] => s
  | s :: l' => s ++ "/" ++ join_slash l'
  end.

(** [s.rfind('.')], with [None] for Python's [-1]. *)
Fixpoint rfind_dot (s : string) : option nat :=
  match s with
  | EmptyString => None
  | String c s' =>
      match rfind_dot s' with
      | Some i => Some (S i)
      | None => if is_dot c then Some 0%nat else None
      end
  end.

(** [s.startswith('/')] *)
Definition starts_with_slash (s : string) : bool :=
  match s with
  | String c _ => is_slash c
  | EmptyString => false
  end.

(** [all(p(c) for c in s)] *)
Fixpoint all (p : ascii -> bool) (s : string) : bool :=
  match s with
  | EmptyString => true
  | String c s' => p c && all p s'
  end.

(** [bool(s)]: a string is truthy when it is not empty. *)
Definition truthy (s : string) : bool :=
  match s with EmptyString => false | _ => true end.

End PyStr.

(** ** [pathlib] on POSIX

    A path is what [pathlib] keeps after parsing: whether it is anchored at
    the root, and the list of its components, from which empty components
    and ["."] have been dropped (["//"], which POSIX leaves to the
    implementation, is read as the root).  The [suffix] is the one of Python
    before 3.14. *)

Record Path : Type := mkPath { root : bool; parts : list string }.

Module PathLib.
Import PyStr.

Definition keep_part (s : string) : bool :=
  truthy s && negb (String.eqb s ".").

(** [Path(s)] *)
Definition of_str (s : string) : Path :=
  {| root := starts_with_slash s;
     parts := List.filter keep_part (split_slash s) |}.

(** [str(p)] *)
Definition to_str (p : Path) : string :=
  match root p, parts p with
  | false, [] => "."
  | false, l => join_slash l
  | true, l => "/" ++ join_slash l
  end.

(** [p / s]: an absolute right operand replaces the left one. *)
Definition truediv (p : Path) (s : string) : Path :=
  let q := of_str s in
  if root q then q
  else {| root := root p; parts := parts p ++ parts q |}.

(** [p.name] *)
Definition name (p : Path) : string := List.last (parts p) EmptyString.

(** [p.suffix] *)
Definition suffix (p : Path) : string :=
  let n := name p in
  match rfind_dot n with
  | Some i =>
      if ((0 <? i) && (i <? String.length n - 1))%nat
      then String.substring i (String.length n - i) n
      else EmptyString
  | None => EmptyString
  end.

(** [p.parent] *)
Definition parent (p : Path) : Path :=
  {| root := root p; parts := List.removelast (parts p) |}.

(** A component that [pathlib] keeps as it is: not empty, not ["."], free
    of ['/']. *)
Definition part_ok (s : string) : bool := keep_part s && all not_slash s.

Definition parts_ok (p : Path) : Prop :=
  Forall (fun s => part_ok s = true) (parts p).

End PathLib.

Notation "p // s" := (PathLib.truediv p s) (at level 40, left associativity).

(** ** The file system

    Locations are absolute component lists.  [dirs] are the directories that
    exist (the root always does), [files] the regular files with their
    contents, [cwd] the working directory against which relative paths are
    taken.  Symbolic links, permissions and the limits of the device (free
    space, the length of a name or of a whole path) are not modelled, so
    the only I/O errors are the structural ones below.  The operations
    therefore agree with the system calls on the paths that [OS.path_ok]
    accepts; a statement that depends on it says so. *)

Inductive FileData : Type :=
  | Bytes (content : string)
      (** what [upload_voice] writes: the uploaded bytes *)
  | Placeholder (synthesis_id text voice_id : string) (speed pitch : float)
                (generated : string)
      (** what [generate_synthesis_audio] writes: its text template, kept
          as the values interpolated into it *).

Abbreviation location := (list string).

Record FileSystem : Type := mkFS {
  dirs : gset location;
  files : gmap location FileData;
  cwd : location
}.

Inductive errno : Type := ENOENT | ENOTDIR | EISDIR | EEXIST.

Record OSError : Type := mkOSError { os_errno : errno; os_filename : Path }.

Module OS.

Definition is_dir (fs : FileSystem) (l : location) : bool :=
  bool_decide (l = []) || bool_decide (l ∈ dirs fs).

Definition is_file (fs : FileSystem) (l : location) : bool :=
  bool_decide (is_Some (files fs !! l)).

(** Path resolution as the kernel does it: every component is looked up
    in a directory, [".."] climbs (and stays at the root). *)
Fixpoint walk (fs : FileSystem) (cur : location) (ps : list string)
  : errno + location :=
  match ps with
  | [] => inr cur
  | c :: ps' =>
      if is_dir fs cur then
        walk fs (if String.eqb c ".." then removelast cur else (cur ++ [c])%list) ps'
      else if is_file fs cur then inl ENOTDIR
      else inl ENOENT
  end.

Definition locate (fs : FileSystem) (p : Path) : errno + location :=
  walk fs (if root p then [] else cwd fs) (parts p).

(** [p.exists()]: [False] on [ENOENT] and [ENOTDIR], the only errors of
    [walk].  (Before Python 3.14 any other error of [stat] is re-raised;
    within the model there is none.) *)
Definition exists_ (fs : FileSystem) (p : Path) : bool :=
  match locate fs p with
  | inr l => is_dir fs l || is_file fs l
  | inl _ => false
  end.

(** [with open(p, 'w') as f: f.write(data)] (also mode ['wb']) *)
Definition write_file (fs : FileSystem) (p : Path) (data : FileData)
  : OSError + FileSystem :=
  match locate fs p with
  | inr l =>
      if is_dir fs l then inl (mkOSError EISDIR p)
      else inr (mkFS (dirs fs) (<[l := data]> (files fs)) (cwd fs))
  | inl e => inl (mkOSError e p)
  end.

(** [p.unlink()] *)
Definition unlink (fs : FileSystem) (p : Path) : OSError + FileSystem :=
  match locate fs p with
  | inr l =>
      if is_dir fs l then inl (mkOSError EISDIR p)
      else if is_file fs l
           then inr (mkFS (dirs fs) (delete l (files fs)) (cwd fs))
           else inl (mkOSError ENOENT p)
  | inl e => inl (mkOSError e p)
  end.

(** [d.mkdir(parents=True, exist_ok=True)], one component at a time: the
    missing directories are made from the top; a regular file in the way
    is [EEXIST] when it is the last component, [ENOTDIR] before. *)
Fixpoint mkdir_walk (fs : FileSystem) (cur : location) (ps : list string)
  : errno + FileSystem :=
  match ps with
  | [] => inr fs
  | c :: ps' =>
      let next := if String.eqb c ".." then removelast cur else (cur ++ [c])%list in
      if is_dir fs next then mkdir_walk fs next ps'
      else if is_file fs next
           then inl (match ps' with [] => EEXIST | _ => ENOTDIR end)
           else mkdir_walk
                  (mkFS ({[ next ]} ∪ dirs fs) (files fs) (cwd fs)) next ps'
  end.

(** The error is the one of the first [os.mkdir(d)], which names [d]. *)
Definition mkdir_parents (fs : FileSystem) (p : Path)
  : OSError + FileSystem :=
  match mkdir_walk fs (if root p then [] else cwd fs) (parts p) with
  | inr fs' => inr fs'
  | inl e => inl (mkOSError e p)
  end.

(** What the operations above do not check.  A name is handed to the
    kernel in UTF-8 (a code point from 128 on takes two bytes); it may
    not hold a NUL, nor be longer than [NAME_MAX] bytes, and the whole
    path must fit in [PATH_MAX] bytes with its final NUL (the values are
    those of Linux). *)
Fixpoint utf8_length (s : string) : nat :=
  match s with
  | EmptyString => 0
  | String c s' =>
      ((if nat_of_ascii c <? 128 then 1 else 2) + utf8_length s')%nat
  end.

Definition NAME_MAX : nat := 255.
Definition PATH_MAX : nat := 4096.

Definition name_ok (c : string) : bool :=
  (utf8_length c <=? NAME_MAX)%nat
  && PyStr.all (fun a => negb (Ascii.eqb a Ascii.zero)) c.

Definition path_ok (p : Path) : bool :=
  List.forallb name_ok (parts p)
  && (utf8_length (PathLib.to_str p) <? PATH_MAX)%nat.

End OS.

(** ** Python [dict] with [str] keys

    Kept as the list of its items in insertion order, which is the order
    [values()] returns them in. *)

Module Dict.
Section Ops.
Context {V : Type}.

Definition t : Type := list (string * V).

(** [d.get(k)] *)
Fixpoint get (k : string) (d : t) : option V :=
  match d with
  | [] => None
  | (k', v) :: d' => if String.eqb k k' then Some v else get k d'
  end.

(** [k in d] *)
Definition contains (k : string) (d : t) : bool :=
  match get k d with Some _ => true | None => false end.

(** [d[k] = v]: an existing key keeps its place, a new one goes last. *)
Fixpoint set (k : string) (v : V) (d : t) : t :=
  match d with
  | [] => [(k, v)]
  | (k', v') :: d' =>
      if String.eqb k k' then (k', v) :: d' else (k', v') :: set k v d'
  end.

(** [del d[k]]: the item of key [k] goes (every item of that key, in a
    list that would hold several). *)
Fixpoint del (k : string) (d : t) : t :=
  match d with
  | [] => []
  | (k', v') :: d' =>
      if String.eqb k k' then del k d' else (k', v') :: del k d'
  end.

(** [list(d.values())] *)
Definition values (d : t) : list V := List.map snd d.

(** [list(d.keys())] *)
Definition keys (d : t) : list string := List.map fst d.

End Ops.
Arguments t : clear implicits.
End Dict.

(** ** [uuid.UUID] *)

Module UUID.

Definition hex_digit (n : N) : ascii :=
  List.nth (N.to_nat n)
    ["0"; "1"; "2"; "3"; "4"; "5"; "6"; "7";
     "8"; "9"; "a"; "b"; "c"; "d"; "e"; "f"]%char "0"%char.

(** ['%0wx' % n], for [n] below [16 ^ w]. *)
Fixpoint hex (w : nat) (n : N) : string :=
  match w with
  | O => EmptyString
  | S w' => hex w' (n / 16) ++ String (hex_digit (n mod 16)) EmptyString
  end.

(** [UUID(bytes=b, version=4).int]: the variant bits are set to RFC 4122
    and the version nibble to 4. *)
Definition version4 (b : N) : N :=
  let i := N.ldiff b (N.shiftl 0xc000 48) in
  let i := N.lor i (N.shiftl 0x8000 48) in
  let i := N.ldiff i (N.shiftl 0xf000 64) in
  N.lor i (N.shiftl 4 76).

(** [str(u)]: 8-4-4-4-12 lower-case hexadecimal digits. *)
Definition to_str (u : N) : string :=
  let h := hex 32 u in
  String.substring 0 8 h ++ "-" ++ String.substring 8 4 h ++ "-"
  ++ String.substring 12 4 h ++ "-" ++ String.substring 16 4 h ++ "-"
  ++ String.substring 20 12 h.

(** The characters of a printed UUID: digits, [a]..[f] and the dash. *)
Definition is_uuid_char (c : ascii) : bool :=
  let n := nat_of_ascii c in
  ((48 <=? n) && (n <=? 57) || (97 <=? n) && (n <=? 102) || (n =? 45))%nat.

End UUID.

(** ** Data models (the pydantic classes) *)

Module Voice.
Record t : Type := mk {
  id : string;
  name : string;
  description : string;
  language : string;
  created_at : string;
  file_path : option string;
  duration : option float;
  sample_rate : option Z
}.
End Voice.

Module SynthesisRequest.
Record t : Type := mk {
  text : string;
  voice_id : string;
  speed : float;
  pitch : float
}.

(** The JSON body before validation, for a body that carries [text] and
    [voice_id] as strings and [speed] and [pitch], when it carries them,
    as numbers; [speed] and [pitch] may be left out.  A body that lacks a
    required field, or holds a value of another type, is refused as well,
    and is not a value of this type. *)
Record body : Type := mkBody {
  body_text : string;
  body_voice_id : string;
  body_speed : option float;
  body_pitch : option float
}.

(** [Field(ge=0.5, le=2.0)] *)
Definition in_range (x : float) : bool :=
  (PrimFloat.leb 0.5 x && PrimFloat.leb x 2.0)%float.

(** [Field(min_length=1, max_length=5000)] *)
Definition text_ok (s : string) : bool :=
  ((1 <=? String.length s) && (String.length s <=? 5000))%nat.

(** What pydantic does with the field declarations: defaults are filled
    in, then every constraint is checked; [None] is a validation error. *)
Definition validate (b : body) : option t :=
  let speed := default 1.0%float (body_speed b) in
  let pitch := default 1.0%float (body_pitch b) in
  if text_ok (body_text b) && in_range speed && in_range pitch
  then Some (mk (body_text b) (body_voice_id b) speed pitch)
  else None.
End SynthesisRequest.

Module SynthesisResponse.
Record t : Type := mk {
  id : string;
  audio_url : string;
  duration : option float;
  voice_id : string;
  text : string;
  created_at : string
}.
End SynthesisResponse.

(** [fastapi.UploadFile], as far as the handlers read it. *)
Module UploadFile.
Record t : Type := mk {
  filename : option string;
  content_type : option string;
  content : string
}.
End UploadFile.

(** [fastapi.responses.FileResponse], as the handler builds it. *)
Module FileResponse.
Record t : Type := mk {
  path : Path;
  media_type : string;
  filename : string
}.
End FileResponse.

(** ** Exceptions *)

Inductive exn : Type :=
  | HTTPException (status_code : Z) (detail : Detail)
  | OSException (e : OSError)
  | KeyError (key : string)
  | RequestValidationError
with Detail : Type :=
  | Msg (s : string)
  | MsgStr (prefix : string) (e : exn)
      (** an f-string ending in [{str(e)}] *).

(** ** The world and the monad of handlers *)

Record World : Type := mkWorld {
  voices_db : Dict.t Voice.t;
  synthesis_cache : Dict.t SynthesisResponse.t;
  disk : FileSystem;
  urandom : nat -> N;      (** the successive 16-byte draws of [os.urandom] *)
  drawn : nat;             (** how many have been taken *)
  clock : nat -> string;   (** the successive [datetime.now().isoformat()] *)
  ticks : nat              (** how many have been read *)
}.

Inductive outcome (A : Type) : Type :=
  | Return (a : A)
  | Raise (e : exn).
Arguments Return {A} a.
Arguments Raise {A} e.

Definition M (A : Type) : Type := World -> outcome A * World.

#[global] Instance M_ret : MRet M := fun A a w => (Return a, w).

(** A raised exception skips the rest; what was already done to the world
    stays done. *)
#[global] Instance M_bind : MBind M := fun A B f m w =>
  match m w with
  | (Return a, w') => f a w'
  | (Raise e, w') => (Raise e, w')
  end.

Definition raise {A : Type} (e : exn) : M A := fun w => (Raise e, w).

(** [try: m except Exception as e: h e] *)
Definition try_except {A : Type} (m : M A) (h : exn -> M A) : M A :=
  fun w =>
    match m w with
    | (Return a, w') => (Return a, w')
    | (Raise e, w') => h e w'
    end.

Definition read {A : Type} (f : World -> A) : M A := fun w => (Return (f w), w).

Definition set_voices_db (d : Dict.t Voice.t) : M unit := fun w =>
  (Return tt, mkWorld d (synthesis_cache w) (disk w)
                      (urandom w) (drawn w) (clock w) (ticks w)).

Definition set_synthesis_cache (d : Dict.t SynthesisResponse.t) : M unit :=
  fun w =>
  (Return tt, mkWorld (voices_db w) d (disk w)
                      (urandom w) (drawn w) (clock w) (ticks w)).

Definition set_disk (fs : FileSystem) : M unit := fun w =>
  (Return tt, mkWorld (voices_db w) (synthesis_cache w) fs
                      (urandom w) (drawn w) (clock w) (ticks w)).

(** A file-system operation: its error is raised, its result installed. *)
Definition os_do (op : FileSystem -> OSError + FileSystem) : M unit :=
  fs ← read disk;
  match op fs with
  | inr fs' => set_disk fs'
  | inl e => raise (OSException e)
  end.

(** [uuid.uuid4()] *)
Definition uuid4 : M N := fun w =>
  (Return (UUID.version4 (urandom w (drawn w) mod 2 ^ 128)%N),
   mkWorld (voices_db w) (synthesis_cache w) (disk w)
           (urandom w) (S (drawn w)) (clock w) (ticks w)).

(** [datetime.now().isoformat()] *)
Definition now_isoformat : M string := fun w =>
  (Return (clock w (ticks w)),
   mkWorld (voices_db w) (synthesis_cache w) (disk w)
           (urandom w) (drawn w) (clock w) (S (ticks w))).

(** [float(n)] for a length [n] *)
Definition float_of_nat (n : nat) : float :=
  PrimFloat.of_uint63 (Uint63.of_Z (Z.of_nat n)).

(** ** The service *)

Section Service.

(** The value of [__file__]: where [main.py] lives. *)
Variable module_file : string.

Definition BASE_DIR : Path := PathLib.parent (PathLib.of_str module_file).
Definition VOICES_DIR : Path := BASE_DIR // "storage" // "voices".
Definition AUDIO_DIR : Path := BASE_DIR // "storage" // "audio".
Definition TEMP_DIR : Path := BASE_DIR // "storage" // "temp".

(** The loop that runs when the module is imported. *)
Definition ensure_directories : M unit :=
  os_do (fun fs => OS.mkdir_parents fs VOICES_DIR);;
  os_do (fun fs => OS.mkdir_parents fs AUDIO_DIR);;
  os_do (fun fs => OS.mkdir_parents fs TEMP_DIR).

(** *** Utility functions *)

(** The [try] body is a constant, so the [except] branch is dead. *)
Definition get_audio_duration (file_path : Path) : option float :=
  Some 10.0%float.

Definition valid_types : list string :=
  ["audio/wav"; "audio/mpeg"; "audio/mp3"; "audio/ogg"; "audio/flac"].

Definition validate_audio_file (file : UploadFile.t) : bool :=
  match UploadFile.content_type file with
  | None => false
  | Some ct =>
      if negb (PyStr.truthy ct) then false
      else bool_decide (ct ∈ valid_types)
  end.

Definition generate_synthesis_audio
  (text voice_id : string) (speed pitch : float) : M Path :=
  u ← uuid4;
  let synthesis_id := UUID.to_str u in
  let output_file := AUDIO_DIR // ("synthesis_" ++ synthesis_id ++ ".txt") in
  generated ← now_isoformat;
  let content :=
    Placeholder synthesis_id text voice_id speed pitch generated in
  os_do (fun fs => OS.write_file fs output_file content);;
  mret output_file.

(** *** Health check ([GET /], which reads and writes nothing, is left out) *)

Record Health : Type := mkHealth {
  status : string;
  timestamp : string;
  voice_count : nat;
  synthesis_count : nat
}.

Definition health_check : M Health :=
  now ← now_isoformat;
  db ← read voices_db;
  cache ← read synthesis_cache;
  mret (mkHealth "healthy" now (length db) (length cache)).

(** *** Voice management *)

Definition get_voices : M (list Voice.t) :=
  read (fun w => Dict.values (voices_db w)).

Definition voice_not_found (voice_id : string) : exn :=
  HTTPException 404 (Msg ("Voice with ID '" ++ voice_id ++ "' not found")).

Definition get_voice (voice_id : string) : M Voice.t :=
  db ← read voices_db;
  match Dict.get voice_id db with
  | None => raise (voice_not_found voice_id)
  | Some v => mret v
  end.

(** [except HTTPException: raise] followed by
    [except Exception as e: raise HTTPException(500, prefix + str(e))] *)
Definition reraise_or_500 {A : Type} (prefix : string) (e : exn) : M A :=
  match e with
  | HTTPException _ _ => raise e
  | _ => raise (HTTPException 500 (MsgStr prefix e))
  end.

Definition upload_voice
  (file : UploadFile.t) (name description language : string) : M Voice.t :=
  try_except
    (if negb (validate_audio_file file) then
       raise (HTTPException 400
         (Msg "Invalid audio file. Supported formats: WAV, MP3, OGG, FLAC"))
     else
       u ← uuid4;
       let voice_id := UUID.to_str u in
       let original_filename :=
         match UploadFile.filename file with
         | Some f => if PyStr.truthy f then f else "audio.wav"
         | None => "audio.wav"
         end in
       let file_extension :=
         PyStr.lower (PathLib.suffix (PathLib.of_str original_filename)) in
       let file_extension :=
         if negb (PyStr.truthy file_extension) then ".wav"
         else file_extension in
       let voice_file_path := VOICES_DIR // (voice_id ++ file_extension) in
       os_do (fun fs =>
                OS.write_file fs voice_file_path
                  (Bytes (UploadFile.content file)));;
       let duration := get_audio_duration voice_file_path in
       created ← now_isoformat;
       let voice :=
         Voice.mk voice_id name description language created
                  (Some (PathLib.to_str voice_file_path)) duration
                  (Some 22050%Z) in
       db ← read voices_db;
       set_voices_db (Dict.set voice_id voice db);;
       mret voice)
    (reraise_or_500 "Failed to upload voice: ").

Definition delete_voice (voice_id : string) : M string :=
  db ← read voices_db;
  if negb (Dict.contains voice_id db) then raise (voice_not_found voice_id)
  else
    try_except
      (db ← read voices_db;
       match Dict.get voice_id db with
       | None => raise (KeyError voice_id)  (* excluded by the test above *)
       | Some voice =>
           match Voice.file_path voice with
           | Some fp =>
               if PyStr.truthy fp then
                 let file_path := PathLib.of_str fp in
                 fs ← read disk;
                 if OS.exists_ fs file_path
                 then os_do (fun fs => OS.unlink fs file_path)
                 else mret tt
               else mret tt
           | None => mret tt
           end;;
           db ← read voices_db;
           set_voices_db (Dict.del voice_id db);;
           mret ("Voice '" ++ Voice.name voice ++ "' deleted successfully")
       end)
      (fun e => raise (HTTPException 500 (MsgStr "Failed to delete voice: " e))).

(** *** Speech synthesis *)

Definition synthesize_speech (request : SynthesisRequest.t)
  : M SynthesisResponse.t :=
  try_except
    (db ← read voices_db;
     if negb (Dict.contains (SynthesisRequest.voice_id request) db) then
       raise (voice_not_found (SynthesisRequest.voice_id request))
     else
       audio_file ← generate_synthesis_audio
                      (SynthesisRequest.text request)
                      (SynthesisRequest.voice_id request)
                      (SynthesisRequest.speed request)
                      (SynthesisRequest.pitch request);
       u ← uuid4;
       let synthesis_id := UUID.to_str u in
       created ← now_isoformat;
       let synthesis_response :=
         SynthesisResponse.mk
           synthesis_id
           ("/audio/" ++ PathLib.name audio_file)
           (Some (float_of_nat
                    (String.length (SynthesisRequest.text request)) * 0.1)%float)
           (SynthesisRequest.voice_id request)
           (SynthesisRequest.text request)
           created in
       cache ← read synthesis_cache;
       set_synthesis_cache (Dict.set synthesis_id synthesis_response cache);;
       mret synthesis_response)
    (reraise_or_500 "Failed to synthesize speech: ").

(** The route [POST /synthesize]: the body is validated against
    [SynthesisRequest] before the handler is called. *)
Definition post_synthesize (b : SynthesisRequest.body)
  : M SynthesisResponse.t :=
  match SynthesisRequest.validate b with
  | None => raise RequestValidationError
  | Some request => synthesize_speech request
  end.

Definition get_synthesis (synthesis_id : string) : M SynthesisResponse.t :=
  cache ← read synthesis_cache;
  match Dict.get synthesis_id cache with
  | None =>
      raise (HTTPException 404
        (Msg ("Synthesis with ID '" ++ synthesis_id ++ "' not found")))
  | Some r => mret r
  end.

Definition get_all_synthesis : M (list SynthesisResponse.t) :=
  read (fun w => Dict.values (synthesis_cache w)).

(** *** Audio file serving *)

Definition media_types : list (string * string) :=
  [(".wav", "audio/wav"); (".mp3", "audio/mpeg"); (".ogg", "audio/ogg");
   (".flac", "audio/flac"); (".txt", "text/plain")].

Definition serve_audio (filename : string) : M FileResponse.t :=
  try_except
    (let file_path := AUDIO_DIR // filename in
     fs ← read disk;
     if negb (OS.exists_ fs file_path) then
       raise (HTTPException 404 (Msg "Audio file not found"))
     else
       let extension := PyStr.lower (PathLib.suffix file_path) in
       let media_type :=
         default "application/octet-stream" (Dict.get extension media_types) in
       mret (FileResponse.mk file_path media_type filename))
    (reraise_or_500 "Failed to serve audio file: ").

(** *** Initialization *)

Definition startup_event : M unit :=
  created ← now_isoformat;
  let default_voice :=
    Voice.mk "default" "Default Voice" "Built-in default voice for testing"
             "en" created None None (Some 22050%Z) in
  db ← read voices_db;
  set_voices_db (Dict.set "default" default_voice db).

(** *** Error handlers: the status code of the response

    The code the exception handlers answer with for the outcome of a
    handler.  It does not tell an exception the handler converted from one
    it let through (both are answered 500): statements about that are made
    on the outcome itself. *)

Definition response_status {A : Type} (success : Z) (o : outcome A) : Z :=
  match o with
  | Return _ => success
  | Raise (HTTPException code _) => code   (* [http_exception_handler] *)
  | Raise RequestValidationError => 422    (* FastAPI's own handler *)
  | Raise (OSException _) => 500           (* [general_exception_handler] *)
  | Raise (KeyError _) => 500
  end.

(** *** Notions used in the statements *)

(** The identifier the next call of [uuid4] yields, and the one after. *)
Definition next_uuid (w : World) : string :=
  UUID.to_str (UUID.version4 (urandom w (drawn w) mod 2 ^ 128)%N).

Definition second_uuid (w : World) : string :=
  UUID.to_str (UUID.version4 (urandom w (S (drawn w)) mod 2 ^ 128)%N).

(** The identifier the [i]-th call of [uuid4] yields, counting from 0:
    [next_uuid w] is [uuid_at w (drawn w)]. *)
Definition uuid_at (w : World) (i : nat) : string :=
  UUID.to_str (UUID.version4 (urandom w i mod 2 ^ 128)%N).

(** The next identifier repeats none of those drawn so far. *)
Definition draw_is_new (w : World) : bool :=
  List.forallb (fun i => negb (String.eqb (uuid_at w i) (next_uuid w)))
    (List.seq 0 (drawn w)).

(** The artifact a synthesis request writes. *)
Definition artifact_path (w : World) : Path :=
  AUDIO_DIR // ("synthesis_" ++ next_uuid w ++ ".txt").

(** The extension [upload_voice] gives the stored file. *)
Definition stored_extension (file : UploadFile.t) : string :=
  let original_filename :=
    match UploadFile.filename file with
    | Some f => if PyStr.truthy f then f else "audio.wav"
    | None => "audio.wav"
    end in
  let file_extension :=
    PyStr.lower (PathLib.suffix (PathLib.of_str original_filename)) in
  if negb (PyStr.truthy file_extension) then ".wav" else file_extension.

Definition stored_path (file : UploadFile.t) (w : World) : Path :=
  VOICES_DIR // (next_uuid w ++ stored_extension file).

(** A voice table is consistent when every record is filed under its own
    [id]. *)
Definition registry_ok (db : Dict.t Voice.t) : bool :=
  List.forallb (fun kv => String.eqb (fst kv) (Voice.id (snd kv))) db.

(** The path behind a record's [file_path], when the record has one. *)
Definition backing_path (v : Voice.t) : option Path :=
  match Voice.file_path v with
  | Some fp => if PyStr.truthy fp then Some (PathLib.of_str fp) else None
  | None => None
  end.

(** Whether the backing path of a record leads to a directory. *)
Definition backing_is_dir (fs : FileSystem) (v : Voice.t) : bool :=
  match backing_path v with
  | Some p =>
      match OS.locate fs p with
      | inr l => OS.is_dir fs l
      | inl _ => false
      end
  | None => false
  end.

(** [p] resolves to a location strictly below the one [d] resolves to. *)
Definition strictly_inside (fs : FileSystem) (d p : Path) : bool :=
  match OS.locate fs d, OS.locate fs p with
  | inr ld, inr lp =>
      (length ld <? length lp)%nat
      && bool_decide (take (length ld) lp = ld)
  | _, _ => false
  end.

(** The extension in the words of the specification: the one of the
    original file name, [".wav"] when it has none. *)
Definition original_extension (file : UploadFile.t) : string :=
  let original_filename :=
    match UploadFile.filename file with
    | Some f => if PyStr.truthy f then f else "audio.wav"
    | None => "audio.wav"
    end in
  let e := PathLib.suffix (PathLib.of_str original_filename) in
  if PyStr.truthy e then e else ".wav".

(** *** The service as a transition system *)

Inductive request : Type :=
  | GetHealth
  | GetVoices
  | GetVoice (voice_id : string)
  | PostVoices (file : UploadFile.t) (name description language : string)
  | DeleteVoice (voice_id : string)
  | PostSynthesize (b : SynthesisRequest.body)
  | GetSynthesis (synthesis_id : string)
  | GetAllSynthesis
  | GetAudio (filename : string).

(** The world after a request has been served. *)
Definition serve (rq : request) (w : World) : World :=
  match rq with
  | GetHealth => snd (health_check w)
  | GetVoices => snd (get_voices w)
  | GetVoice voice_id => snd (get_voice voice_id w)
  | PostVoices file name description language =>
      snd (upload_voice file name description language w)
  | DeleteVoice voice_id => snd (delete_voice voice_id w)
  | PostSynthesize b => snd (post_synthesize b w)
  | GetSynthesis synthesis_id => snd (get_synthesis synthesis_id w)
  | GetAllSynthesis => snd (get_all_synthesis w)
  | GetAudio filename => snd (serve_audio filename w)
  end.

(** The worlds the service can be in: it starts, with both tables empty,
    by running [startup_event], and then serves requests. *)
Inductive reachable : World -> Prop :=
  | reachable_startup (w0 : World) :
      voices_db w0 = [] -> synthesis_cache w0 = [] ->
      reachable (snd (startup_event w0))
  | reachable_serve (w : World) (rq : request) :
      reachable w -> reachable (serve rq w).

(** No record of the table has a directory for backing path. *)
Definition backed_by_files (w : World) : Prop :=
  forall k v, In (k, v) (voices_db w) -> backing_is_dir (disk w) v = false.

(** Every key of the voice table is ["default"] or an identifier that
    [uuid4] has drawn. *)
Definition keys_are_draws (w : World) : Prop :=
  forall k, In k (Dict.keys (voices_db w)) ->
    k = "default" \/ exists i, (i < drawn w)%nat /\ k = uuid_at w i.

End Service.

(** ** A concrete deployment, used by the examples *)

Module Scenario.

Definition main_py : string := "/srv/backend/main.py".

(** An empty disk, entropy 0, 1, 2, ... and a clock that counts. *)
Definition blank : World :=
  mkWorld [] [] (mkFS ∅ ∅ [])
          (fun n => N.of_nat n) 0
          (fun n => "2026-11-03T09:00:0" ++ String (ascii_of_nat (48 + n)) "") 0.

(** The service once imported and started. *)
Definition booted : World :=
  snd ((ensure_directories main_py;; startup_event) blank).

Definition hello : SynthesisRequest.t :=
  SynthesisRequest.mk "hello" "default" 1.0%float 1.0%float.

Definition a_wav : UploadFile.t :=
  UploadFile.mk (Some "a.wav") (Some "audio/wav") "RIFF".

Definition shouting_wav : UploadFile.t :=
  UploadFile.mk (Some "A.WAV") (Some "audio/wav") "RIFF".

Definition stranger : SynthesisRequest.t :=
  SynthesisRequest.mk "hello" "nobody" 1.0%float 1.0%float.

(** A body that asks for three times the normal speed. *)
Definition too_fast : SynthesisRequest.body :=
  SynthesisRequest.mkBody "hello" "default" (Some 3.0%float) None.

Definition notes_txt : UploadFile.t :=
  UploadFile.mk (Some "notes.txt") (Some "text/plain") "hi".

(** The result of a computation that is known to return. *)
Definition returned {A : Type} (dflt : A) (r : outcome A * World) : A :=
  match fst r with Return a => a | Raise _ => dflt end.

Definition no_voice : Voice.t := Voice.mk "" "" "" "" "" None None None.
Definition no_job : SynthesisResponse.t :=
  SynthesisResponse.mk "" "" None "" "" "".

(** The world after [a.wav] has been uploaded, and the record returned. *)
Definition uploaded : World :=
  snd (upload_voice main_py a_wav "Custom Voice" "" "en" booted).
Definition uploaded_voice : Voice.t :=
  returned no_voice (upload_voice main_py a_wav "Custom Voice" "" "en" booted).

(** The world after "hello" has been synthesized, and the job returned. *)
Definition synthesized : World := snd (synthesize_speech main_py hello booted).
Definition hello_job : SynthesisResponse.t :=
  returned no_job (synthesize_speech main_py hello booted).

(** The world after [A.WAV] has been uploaded next, and the record
    returned. *)
Definition uploaded_again : World :=
  snd (upload_voice main_py shouting_wav "Second Voice" "" "en" uploaded).
Definition second_voice : Voice.t :=
  returned no_voice
    (upload_voice main_py shouting_wav "Second Voice" "" "en" uploaded).

(** The same deployment on an entropy source that is stuck: every draw of
    [os.urandom] is 0. *)
Definition stuck_blank : World :=
  mkWorld [] [] (mkFS ∅ ∅ [])
          (fun _ => 0%N) 0
          (fun n => "2026-11-03T09:00:0" ++ String (ascii_of_nat (48 + n)) "") 0.

Definition stuck : World :=
  snd ((ensure_directories main_py;; startup_event) stuck_blank).

(** Two uploads in a row on it. *)
Definition stuck_first : outcome Voice.t * World :=
  upload_voice main_py a_wav "First" "" "en" stuck.
Definition stuck_second : outcome Voice.t * World :=
  upload_voice main_py a_wav "Second" "" "en" (snd stuck_first).

End Scenario.

(** * Properties *)

(** ** Dictionaries *)

Module DictFacts.
Section Facts.
Context {V : Type}.
Implicit Types (d : Dict.t V) (k : string) (v : V).

Lemma eqb_true k k' : String.eqb k k' = true <-> k = k'.
Proof. apply String.eqb_eq. Qed.

Lemma eqb_false k k' : String.eqb k k' = false <-> k <> k'.
Proof. apply String.eqb_neq. Qed.

Lemma get_set_eq d k v : Dict.get k (Dict.set k v d) = Some v.
Proof.
  induction d as [|[k' v'] d IH]; simpl.
  - now rewrite String.eqb_refl.
  - destruct (String.eqb k k') eqn:E; simpl; rewrite E; auto.
Qed.

Lemma get_set_ne d k k' v :
  k <> k' -> Dict.get k' (Dict.set k v d) = Dict.get k' d.
Proof.
  intros Hne. induction d as [|[k0 v0] d IH]; simpl.
  - apply not_eq_sym, eqb_false in Hne. now rewrite Hne.
  - destruct (String.eqb k k0) eqn:E; simpl.
    + apply eqb_true in E. subst k0.
      apply not_eq_sym, eqb_false in Hne. now rewrite Hne.
    + now rewrite IH.
Qed.

Lemma get_del_eq d k : Dict.get k (Dict.del k d) = None.
Proof.
  induction d as [|[k' v'] d IH]; simpl; auto.
  destruct (String.eqb k k') eqn:E; simpl; auto. now rewrite E.
Qed.

Lemma get_del_ne d k k' :
  k <> k' -> Dict.get k' (Dict.del k d) = Dict.get k' d.
Proof.
  intros Hne. induction d as [|[k0 v0] d IH]; simpl; auto.
  destruct (String.eqb k k0) eqn:E; simpl.
  - apply eqb_true in E. subst k0.
    apply not_eq_sym, eqb_false in Hne. now rewrite Hne.
  - now rewrite IH.
Qed.

Lemma contains_true d k : Dict.contains k d = true <-> is_Some (Dict.get k d).
Proof.
  unfold Dict.contains. destruct (Dict.get k d); split; intros H; auto.
  - discriminate.
  - now destruct H.
Qed.

Lemma contains_false d k : Dict.contains k d = false <-> Dict.get k d = None.
Proof.
  unfold Dict.contains. destruct (Dict.get k d); split; intros H;
    auto; discriminate.
Qed.

Lemma items_del d k k' v :
  In (k', v) (Dict.del k d) <-> k' <> k /\ In (k', v) d.
Proof.
  induction d as [|[k0 v0] d IH]; simpl; [tauto|].
  destruct (String.eqb k k0) eqn:E.
  - apply eqb_true in E. subst k0. rewrite IH. split; [tauto|].
    intros [Hne [H|H]]; [congruence | tauto].
  - apply eqb_false in E. simpl. rewrite IH. split.
    + intros [H|H]; [inversion H; subst; split; auto | tauto].
    + tauto.
Qed.

Lemma items_set d k v k' v' :
  In (k', v') (Dict.set k v d) -> (k' = k /\ v' = v) \/ In (k', v') d.
Proof.
  induction d as [|[k0 v0] d IH]; simpl.
  - intros [H|[]]. inversion H. auto.
  - destruct (String.eqb k k0) eqn:E; simpl.
    + apply eqb_true in E. subst k0.
      intros [H|H]; [inversion H; auto | auto].
    + intros [H|H]; [auto | destruct (IH H); auto].
Qed.

Lemma set_fresh d k v :
  Dict.contains k d = false -> Dict.set k v d = (d ++ [(k, v)])%list.
Proof.
  unfold Dict.contains. induction d as [|[k' v'] d IH]; cbn; [reflexivity|].
  destruct (String.eqb k k'); [discriminate|]. intros H. now rewrite IH.
Qed.

Lemma values_In d v :
  In v (Dict.values d) <-> exists k, In (k, v) d.
Proof.
  unfold Dict.values. rewrite in_map_iff. split.
  - intros ([k v'] & <- & H). eauto.
  - intros (k & H). exists (k, v). auto.
Qed.

Lemma get_In d k v : Dict.get k d = Some v -> In (k, v) d.
Proof.
  induction d as [|[k' v'] d IH]; cbn; [discriminate|].
  destruct (String.eqb k k') eqn:E.
  - apply eqb_true in E. subst k'. intros [= ->]. now left.
  - intros H. right. auto.
Qed.

End Facts.
End DictFacts.

(** ** Floats *)

Module FloatFacts.

Lemma SFcompare_antisym x y :
  SFcompare y x = option_map CompOpp (SFcompare x y).
Proof.
  destruct x as [sx|sx| |sx mx ex], y as [sy|sy| |sy my ey]; cbn;
    try reflexivity; try (destruct sx; reflexivity);
    try (destruct sy; reflexivity); try (destruct sx, sy; reflexivity).
  destruct sx, sy; cbn; try reflexivity.
  - rewrite (Z.compare_antisym ex ey).
    destruct (ex ?= ey)%Z; cbn; try reflexivity.
    change (Pcompare my mx Eq) with (my ?= mx)%positive.
    change (Pcompare mx my Eq) with (mx ?= my)%positive.
    now rewrite (Pos.compare_antisym mx my).
  - rewrite (Z.compare_antisym ex ey).
    destruct (ex ?= ey)%Z; cbn; try reflexivity.
    change (Pcompare my mx Eq) with (my ?= mx)%positive.
    change (Pcompare mx my Eq) with (mx ?= my)%positive.
    now rewrite (Pos.compare_antisym mx my).
Qed.

(** [x < y] excludes [y <= x]. *)
Lemma ltb_not_leb x y : PrimFloat.ltb x y = true -> PrimFloat.leb y x = false.
Proof.
  rewrite FloatAxioms.ltb_spec, FloatAxioms.leb_spec. unfold SFltb, SFleb.
  rewrite (SFcompare_antisym (Prim2SF x) (Prim2SF y)).
  destruct (SFcompare (Prim2SF x) (Prim2SF y)) as [[]|]; cbn; congruence.
Qed.

Lemma below_range x :
  PrimFloat.ltb x 0.5 = true -> SynthesisRequest.in_range x = false.
Proof.
  intros H. unfold SynthesisRequest.in_range. now rewrite (ltb_not_leb _ _ H).
Qed.

Lemma above_range x :
  PrimFloat.ltb 2.0 x = true -> SynthesisRequest.in_range x = false.
Proof.
  intros H. unfold SynthesisRequest.in_range.
  rewrite (ltb_not_leb _ _ H). apply andb_false_r.
Qed.

Lemma outside_range x :
  PrimFloat.ltb x 0.5 = true \/ PrimFloat.ltb 2.0 x = true ->
  SynthesisRequest.in_range x = false.
Proof. intros [H|H]; [now apply below_range | now apply above_range]. Qed.

(** Not a number is in no range. *)
Lemma nan_out_of_range : SynthesisRequest.in_range nan = false.
Proof. reflexivity. Qed.

End FloatFacts.

(** ** Strings, paths and identifiers *)

Module StrFacts.
Import PyStr.

Lemma all_app p s t : all p (s ++ t) = all p s && all p t.
Proof.
  induction s as [|c s IH]; simpl; [reflexivity|].
  now rewrite IH, andb_assoc.
Qed.

Lemma all_impl (p q : ascii -> bool) s :
  (forall c, p c = true -> q c = true) -> all p s = true -> all q s = true.
Proof.
  intros Hpq. induction s as [|c s IH]; simpl; [reflexivity|].
  rewrite !andb_true_iff. intros [Hc Hs]. auto.
Qed.

Lemma all_substring p n m s :
  all p s = true -> all p (String.substring n m s) = true.
Proof.
  revert n m. induction s as [|c s IH]; intros n m; simpl.
  - now destruct n, m.
  - rewrite andb_true_iff. intros [Hc Hs].
    destruct n as [|n]; [destruct m as [|m]|]; simpl; auto.
    rewrite Hc. simpl. auto.
Qed.

Lemma lower_char_slash c : is_slash (lower_char c) = true -> is_slash c = true.
Proof.
  destruct c as [[] [] [] [] [] [] [] []]; vm_compute; congruence.
Qed.

Lemma all_not_slash_lower s :
  all not_slash s = true -> all not_slash (lower s) = true.
Proof.
  induction s as [|c s IH]; simpl; [reflexivity|].
  rewrite !andb_true_iff. intros [Hc Hs]. split; auto.
  unfold not_slash in *. destruct (is_slash (lower_char c)) eqn:E; [|reflexivity].
  apply lower_char_slash in E. now rewrite E in Hc.
Qed.

Lemma split_slash_whole s : all not_slash s = true -> split_slash s = [s].
Proof.
  induction s as [|c s IH]; simpl; [reflexivity|].
  unfold not_slash at 1. rewrite andb_true_iff, negb_true_iff.
  intros [-> Hs]. now rewrite (IH Hs).
Qed.

Lemma split_slash_pieces s : Forall (fun t => all not_slash t = true) (split_slash s).
Proof.
  induction s as [|c s IH]; simpl.
  - repeat constructor.
  - destruct (is_slash c) eqn:E.
    + constructor; [reflexivity | exact IH].
    + destruct (split_slash s) as [|h t].
      * repeat constructor. simpl. unfold not_slash. now rewrite E.
      * inversion IH; subst. constructor; [|assumption].
        simpl. unfold not_slash at 1. now rewrite E.
Qed.

Lemma split_slash_app_slash s j :
  all not_slash s = true ->
  split_slash (s ++ String "/" j) = s :: split_slash j.
Proof.
  induction s as [|c s IH]; intros Hs.
  - reflexivity.
  - cbn in Hs. unfold not_slash at 1 in Hs.
    rewrite andb_true_iff, negb_true_iff in Hs. destruct Hs as [Hc Hs].
    change (split_slash (String c (s ++ String "/" j)) = String c s :: split_slash j).
    cbn [split_slash]. rewrite Hc, (IH Hs). reflexivity.
Qed.

Lemma split_slash_join l :
  l <> [] -> Forall (fun t => all not_slash t = true) l ->
  split_slash (join_slash l) = l.
Proof.
  induction l as [|s l IH]; [congruence|]. intros _ Hl.
  inversion Hl as [|? ? Hs Hl']; subst.
  destruct l as [|s' l].
  - simpl. now apply split_slash_whole.
  - change (join_slash (s :: s' :: l))
      with (s ++ String "/" (join_slash (s' :: l))).
    rewrite (split_slash_app_slash _ _ Hs), IH; [reflexivity | discriminate | assumption].
Qed.

End StrFacts.

Module PathFacts.
Import PyStr PathLib StrFacts.

Lemma of_str_parts_ok s : parts_ok (of_str s).
Proof.
  unfold parts_ok, of_str. cbn [parts].
  pose proof (split_slash_pieces s) as H.
  induction H as [|t l Ht Hl IH]; cbn [List.filter]; [constructor|].
  destruct (keep_part t) eqn:E; [|exact IH].
  constructor; [|exact IH]. unfold part_ok. now rewrite E, Ht.
Qed.

Lemma not_slash_first c s :
  all not_slash (String c s) = true -> starts_with_slash (String c s) = false.
Proof.
  cbn. unfold not_slash at 1. rewrite andb_true_iff, negb_true_iff. tauto.
Qed.

Lemma part_ok_relative s : part_ok s = true -> starts_with_slash s = false.
Proof.
  unfold part_ok. rewrite andb_true_iff. intros [_ H].
  destruct s; [reflexivity | now apply not_slash_first].
Qed.

Lemma of_str_single s : part_ok s = true -> of_str s = mkPath false [s].
Proof.
  intros H. unfold of_str. rewrite (part_ok_relative _ H).
  unfold part_ok in H. apply andb_true_iff in H. destruct H as [Hk Hs].
  rewrite (split_slash_whole _ Hs). cbn [List.filter]. now rewrite Hk.
Qed.

Lemma truediv_single p s :
  part_ok s = true -> p // s = mkPath (root p) (parts p ++ [s]).
Proof.
  intros H. unfold truediv. now rewrite (of_str_single _ H).
Qed.

Lemma truediv_parts_ok p s : parts_ok p -> parts_ok (p // s).
Proof.
  intros Hp. unfold truediv.
  destruct (root (of_str s)) eqn:E; [apply of_str_parts_ok|].
  unfold parts_ok. cbn [parts]. apply Forall_app. split; [exact Hp|].
  apply of_str_parts_ok.
Qed.

Lemma removelast_Forall {A} (P : A -> Prop) (l : list A) :
  Forall P l -> Forall P (removelast l).
Proof.
  induction 1 as [|x l Hx Hl IH]; cbn; [constructor|].
  destruct l; [constructor|]. constructor; assumption.
Qed.

Lemma parent_parts_ok p : parts_ok p -> parts_ok (parent p).
Proof. apply removelast_Forall. Qed.

Lemma filter_keep_all l :
  Forall (fun s => part_ok s = true) l -> List.filter keep_part l = l.
Proof.
  induction 1 as [|s l Hs Hl IH]; cbn; [reflexivity|].
  unfold part_ok in Hs. apply andb_true_iff in Hs. destruct Hs as [-> _].
  now rewrite IH.
Qed.

Lemma pieces_of_parts l :
  Forall (fun s => part_ok s = true) l ->
  Forall (fun t => all not_slash t = true) l.
Proof.
  induction 1 as [|s l Hs Hl IH]; constructor; [|exact IH].
  unfold part_ok in Hs. apply andb_true_iff in Hs. tauto.
Qed.

Lemma join_slash_relative l :
  Forall (fun s => part_ok s = true) l ->
  starts_with_slash (join_slash l) = false.
Proof.
  intros H. destruct H as [|s l Hs Hl]; [reflexivity|].
  pose proof (part_ok_relative _ Hs) as Hr.
  destruct l as [|s' l]; [exact Hr|].
  change (join_slash (s :: s' :: l)) with (s ++ String "/" (join_slash (s' :: l))).
  unfold part_ok, keep_part in Hs. destruct s; [discriminate | exact Hr].
Qed.

(** Printing a parsed path and parsing it again gives the same path. *)
Lemma of_str_to_str p : parts_ok p -> of_str (to_str p) = p.
Proof.
  destruct p as [r l]. unfold parts_ok, to_str. cbn [root parts]. intros Hl.
  destruct r.
  - destruct l as [|s l]; [reflexivity|].
    unfold of_str.
    change ("/" ++ join_slash (s :: l)) with (String "/" (join_slash (s :: l))).
    change (split_slash (String "/" (join_slash (s :: l))))
      with (EmptyString :: split_slash (join_slash (s :: l))).
    rewrite split_slash_join; [|discriminate|now apply pieces_of_parts].
    cbn [starts_with_slash]. change (is_slash "/") with true.
    change (List.filter keep_part (EmptyString :: s :: l))
      with (List.filter keep_part (s :: l)).
    now rewrite filter_keep_all.
  - destruct l as [|s l]; [reflexivity|].
    unfold of_str. rewrite (join_slash_relative _ Hl).
    rewrite split_slash_join; [|discriminate|now apply pieces_of_parts].
    now rewrite filter_keep_all.
Qed.

Lemma name_snoc r l s : name (mkPath r (l ++ [s])) = s.
Proof. unfold name. cbn [parts]. apply last_last. Qed.

Lemma name_not_slash p : parts_ok p -> all not_slash (name p) = true.
Proof.
  unfold parts_ok, name. intros H.
  induction H as [|s l Hs Hl IH]; [reflexivity|].
  cbn [last]. destruct l; [|exact IH].
  unfold part_ok in Hs. apply andb_true_iff in Hs. tauto.
Qed.

Lemma suffix_not_slash p : parts_ok p -> all not_slash (suffix p) = true.
Proof.
  intros H. unfold suffix.
  destruct (rfind_dot (name p)); [|reflexivity].
  destruct (_ && _); [|reflexivity].
  apply all_substring. now apply name_not_slash.
Qed.

Lemma to_str_nonempty p : parts_ok p -> truthy (to_str p) = true.
Proof.
  destruct p as [[] l]; unfold parts_ok, to_str; cbn [root parts];
    [reflexivity|].
  intros H. destruct H as [|s l Hs Hl]; [reflexivity|].
  unfold part_ok, keep_part in Hs. destruct s as [|c s]; [discriminate|].
  destruct l; reflexivity.
Qed.

Lemma removelast_shorter {A} (l : list A) : (length (removelast l) <= length l)%nat.
Proof.
  induction l as [|x l IH]; cbn; [lia|]. destruct l; cbn in *; lia.
Qed.

End PathFacts.

Module UUIDFacts.
Import PyStr PathLib StrFacts.

Lemma hex_digit_char n : UUID.is_uuid_char (UUID.hex_digit n) = true.
Proof.
  unfold UUID.hex_digit. generalize (N.to_nat n). intros k.
  do 16 (destruct k as [|k]; [reflexivity|]).
  destruct k; reflexivity.
Qed.

Lemma hex_chars w n : all UUID.is_uuid_char (UUID.hex w n) = true.
Proof.
  revert n. induction w as [|w IH]; intros n; cbn [UUID.hex]; [reflexivity|].
  rewrite all_app, IH. cbn [all]. now rewrite hex_digit_char.
Qed.

Lemma to_str_chars u : all UUID.is_uuid_char (UUID.to_str u) = true.
Proof.
  unfold UUID.to_str. cbn zeta.
  pose proof (fun n m => all_substring UUID.is_uuid_char n m _ (hex_chars 32 u))
    as Hsub.
  rewrite !all_app, !Hsub. reflexivity.
Qed.

Lemma to_str_truthy u : truthy (UUID.to_str u) = true.
Proof.
  unfold UUID.to_str. cbn zeta.
  destruct (String.substring 0 8 _); reflexivity.
Qed.

Lemma uuid_char_plain c :
  UUID.is_uuid_char c = true -> is_slash c = false /\ is_dot c = false.
Proof.
  destruct c as [[] [] [] [] [] [] [] []]; vm_compute; intuition congruence.
Qed.

Lemma to_str_not_slash u : all not_slash (UUID.to_str u) = true.
Proof.
  apply (all_impl UUID.is_uuid_char); [|apply to_str_chars].
  intros c H. unfold not_slash. now rewrite (proj1 (uuid_char_plain c H)).
Qed.

(** No identifier is the key of the built-in voice. *)
Lemma to_str_not_default u : UUID.to_str u <> "default".
Proof.
  intros H. pose proof (to_str_chars u) as Hc. rewrite H in Hc.
  vm_compute in Hc. discriminate.
Qed.

(** An identifier followed by a slash-free extension is a plain file
    name. *)
Lemma uuid_named_part u ext :
  all not_slash ext = true ->
  part_ok (UUID.to_str u ++ ext) = true
  /\ String.eqb (UUID.to_str u ++ ext) ".." = false.
Proof.
  intros Hext.
  pose proof (to_str_truthy u) as Ht. pose proof (to_str_chars u) as Hc.
  pose proof (to_str_not_slash u) as Hs.
  destruct (UUID.to_str u) as [|c s]; [discriminate|].
  cbn [all] in Hc. apply andb_true_iff in Hc. destruct Hc as [Hc _].
  apply uuid_char_plain in Hc. destruct Hc as [_ Hdot]. unfold is_dot in Hdot.
  unfold part_ok, keep_part. rewrite all_app, Hs, Hext.
  change (String c s ++ ext) with (String c (s ++ ext)).
  cbn [truthy String.eqb andb]. rewrite Hdot. auto.
Qed.

End UUIDFacts.

Module OSFacts.
Import PyStr PathLib StrFacts PathFacts UUIDFacts.

Lemma walk_app fs cur ps qs :
  OS.walk fs cur (ps ++ qs)
  = match OS.walk fs cur ps with
    | inr l => OS.walk fs l qs
    | inl e => inl e
    end.
Proof.
  revert cur. induction ps as [|c ps IH]; intros cur; [reflexivity|].
  cbn [app OS.walk]. destruct (OS.is_dir fs cur); [apply IH|].
  destruct (OS.is_file fs cur); reflexivity.
Qed.

Lemma is_dir_same_dirs fs1 fs2 l :
  dirs fs1 = dirs fs2 -> OS.is_dir fs1 l = OS.is_dir fs2 l.
Proof. unfold OS.is_dir. now intros ->. Qed.

(** Where a path leads depends on the directories only. *)
Lemma walk_same_dirs fs1 fs2 cur ps l :
  dirs fs1 = dirs fs2 ->
  OS.walk fs1 cur ps = inr l -> OS.walk fs2 cur ps = inr l.
Proof.
  intros Hd. revert cur. induction ps as [|c ps IH]; intros cur; [auto|].
  cbn [OS.walk]. rewrite (is_dir_same_dirs _ _ cur Hd).
  destruct (OS.is_dir fs2 cur); [apply IH|].
  destruct (OS.is_file fs1 cur); discriminate.
Qed.

Lemma locate_same_dirs fs1 fs2 p l :
  dirs fs1 = dirs fs2 -> cwd fs1 = cwd fs2 ->
  OS.locate fs1 p = inr l -> OS.locate fs2 p = inr l.
Proof.
  unfold OS.locate. intros Hd <-. now apply walk_same_dirs.
Qed.

(** A plain name under a path leads to the child of that name, as soon as
    the path leads to a directory. *)
Lemma locate_child fs p s l :
  part_ok s = true -> String.eqb s ".." = false ->
  OS.locate fs (p // s) = inr l <->
  exists d, OS.locate fs p = inr d /\ OS.is_dir fs d = true /\ l = (d ++ [s])%list.
Proof.
  intros Hs Hdd. rewrite (truediv_single _ _ Hs).
  unfold OS.locate. cbn [root parts]. rewrite walk_app.
  destruct (OS.walk fs _ (parts p)) as [e|d].
  - split; [discriminate|]. now intros (d & [=] & _).
  - cbn [OS.walk]. rewrite Hdd.
    destruct (OS.is_dir fs d) eqn:E.
    + split.
      * intros [= <-]. eauto.
      * now intros (d' & [= <-] & _ & ->).
    + split.
      * destruct (OS.is_file fs d); discriminate.
      * intros (d' & [= <-] & H & _). congruence.
Qed.

Lemma write_file_inr fs p data fs' :
  OS.write_file fs p data = inr fs' <->
  exists l, OS.locate fs p = inr l /\ OS.is_dir fs l = false
            /\ fs' = mkFS (dirs fs) (<[l := data]> (files fs)) (cwd fs).
Proof.
  unfold OS.write_file. destruct (OS.locate fs p) as [e|l].
  - split; [discriminate|]. now intros (l & [=] & _).
  - destruct (OS.is_dir fs l) eqn:E.
    + split; [discriminate|]. intros (l' & [= <-] & H & _). congruence.
    + split.
      * intros [= <-]. eauto.
      * now intros (l' & [= <-] & _ & ->).
Qed.

(** Removing a file that is there leaves nothing at its path. *)
Lemma unlink_existing fs p :
  OS.exists_ fs p = true ->
  match OS.locate fs p with inr l => OS.is_dir fs l | inl _ => false end = false ->
  exists fs', OS.unlink fs p = inr fs'
              /\ dirs fs' = dirs fs /\ cwd fs' = cwd fs
              /\ OS.exists_ fs' p = false.
Proof.
  unfold OS.exists_, OS.unlink. intros Hex Hnd.
  destruct (OS.locate fs p) as [e|l] eqn:Hl; [discriminate|].
  rewrite Hnd in *. cbn [orb] in Hex. rewrite Hex.
  eexists. split; [reflexivity|]. split; [reflexivity|]. split; [reflexivity|].
  rewrite (locate_same_dirs fs (mkFS (dirs fs) (delete l (files fs)) (cwd fs))
             p l eq_refl eq_refl Hl).
  rewrite (is_dir_same_dirs (mkFS (dirs fs) (delete l (files fs)) (cwd fs))
             fs l eq_refl), Hnd.
  unfold OS.is_file. cbn [files orb]. rewrite lookup_delete_eq.
  apply bool_decide_eq_false_2. now intros [x Hx].
Qed.

Lemma write_file_frame fs p data fs' :
  OS.write_file fs p data = inr fs' -> dirs fs' = dirs fs /\ cwd fs' = cwd fs.
Proof.
  intros H. apply write_file_inr in H. destruct H as (l & _ & _ & ->). auto.
Qed.

Lemma unlink_frame fs p fs' :
  OS.unlink fs p = inr fs' -> dirs fs' = dirs fs /\ cwd fs' = cwd fs.
Proof.
  unfold OS.unlink. destruct (OS.locate fs p); [discriminate|].
  destruct (OS.is_dir _ _); [discriminate|].
  destruct (OS.is_file _ _); [|discriminate]. intros [= <-]. auto.
Qed.

End OSFacts.

(** ** Running the handlers *)

Ltac run_monad :=
  unfold try_except, reraise_or_500, os_do, set_disk, set_voices_db,
    set_synthesis_cache, uuid4, now_isoformat, read, raise,
    mbind, M_bind, mret, M_ret in *;
  cbn beta iota zeta in *.

Section ServiceFacts.

Variable module_file : string.
Import PyStr PathLib StrFacts PathFacts UUIDFacts OSFacts.

(** *** The storage directories and the names given to files *)

Lemma BASE_DIR_parts_ok : parts_ok (BASE_DIR module_file).
Proof. apply parent_parts_ok, of_str_parts_ok. Qed.

Lemma VOICES_DIR_parts_ok : parts_ok (VOICES_DIR module_file).
Proof. do 2 apply truediv_parts_ok. apply BASE_DIR_parts_ok. Qed.

Lemma AUDIO_DIR_parts_ok : parts_ok (AUDIO_DIR module_file).
Proof. do 2 apply truediv_parts_ok. apply BASE_DIR_parts_ok. Qed.

Lemma stored_extension_not_slash file :
  all not_slash (stored_extension file) = true.
Proof.
  unfold stored_extension. cbn zeta.
  destruct (negb (truthy _)); [reflexivity|].
  apply all_not_slash_lower, suffix_not_slash, of_str_parts_ok.
Qed.

Lemma stored_name_ok file w :
  part_ok (next_uuid w ++ stored_extension file) = true
  /\ String.eqb (next_uuid w ++ stored_extension file) ".." = false.
Proof. apply uuid_named_part, stored_extension_not_slash. Qed.

(** The recorded [file_path] reads back as the path that was written. *)
Lemma stored_path_reads_back file w :
  of_str (to_str (stored_path module_file file w))
  = stored_path module_file file w.
Proof.
  apply of_str_to_str. apply truediv_parts_ok, VOICES_DIR_parts_ok.
Qed.

Lemma artifact_name_ok w :
  part_ok ("synthesis_" ++ next_uuid w ++ ".txt") = true
  /\ String.eqb ("synthesis_" ++ next_uuid w ++ ".txt") ".." = false.
Proof.
  split; [|reflexivity].
  unfold part_ok, next_uuid. rewrite !all_app, (to_str_not_slash _). reflexivity.
Qed.

Lemma artifact_path_parts w :
  artifact_path module_file w
  = mkPath (root (AUDIO_DIR module_file))
      (parts (AUDIO_DIR module_file) ++ ["synthesis_" ++ next_uuid w ++ ".txt"]).
Proof. apply truediv_single, artifact_name_ok. Qed.

Lemma stored_extension_lower file :
  stored_extension file = lower (original_extension file).
Proof.
  unfold stored_extension, original_extension. cbn zeta.
  destruct (suffix _) as [|c e]; reflexivity.
Qed.

(** *** The voice table *)

Lemma registry_ok_In db k v :
  registry_ok db = true -> In (k, v) db -> k = Voice.id v.
Proof.
  unfold registry_ok. rewrite forallb_forall. intros H Hin.
  apply String.eqb_eq. exact (H _ Hin).
Qed.

Lemma registry_no_other db k :
  registry_ok db = true -> Dict.contains k db = false ->
  List.filter (fun v => String.eqb (Voice.id v) k) (Dict.values db) = [].
Proof.
  unfold Dict.contains, Dict.values.
  induction db as [|[k' v'] db IH]; cbn; [reflexivity|].
  rewrite andb_true_iff. intros [Hk Hdb]. apply String.eqb_eq in Hk. subst k'.
  rewrite (String.eqb_sym (Voice.id v') k).
  destruct (String.eqb k (Voice.id v')); [discriminate|]. now apply IH.
Qed.

(** *** [synthesize_speech] *)

Lemma synthesize_speech_unknown request w :
  Dict.contains (SynthesisRequest.voice_id request) (voices_db w) = false ->
  synthesize_speech module_file request w
  = (Raise (voice_not_found (SynthesisRequest.voice_id request)), w).
Proof.
  intros H. unfold synthesize_speech. run_monad.
  now rewrite H.
Qed.

(** A call that returns has found the voice and written the artifact; the
    job is stored under the second identifier drawn. *)
Lemma synthesize_speech_returns request w job :
  fst (synthesize_speech module_file request w) = Return job ->
  let w' := snd (synthesize_speech module_file request w) in
  Dict.contains (SynthesisRequest.voice_id request) (voices_db w) = true
  /\ OS.write_file (disk w) (artifact_path module_file w)
       (Placeholder (next_uuid w) (SynthesisRequest.text request)
          (SynthesisRequest.voice_id request) (SynthesisRequest.speed request)
          (SynthesisRequest.pitch request) (clock w (ticks w)))
     = inr (disk w')
  /\ job = SynthesisResponse.mk (second_uuid w)
             ("/audio/" ++ PathLib.name (artifact_path module_file w))
             (Some (float_of_nat
                      (String.length (SynthesisRequest.text request)) * 0.1)%float)
             (SynthesisRequest.voice_id request)
             (SynthesisRequest.text request)
             (clock w (S (ticks w)))
  /\ synthesis_cache w' = Dict.set (second_uuid w) job (synthesis_cache w)
  /\ voices_db w' = voices_db w.
Proof.
  unfold synthesize_speech, generate_synthesis_audio,
    artifact_path, next_uuid, second_uuid.
  run_monad.
  destruct (Dict.contains _ _); cbn [negb]; [|discriminate].
  cbn [disk].
  destruct (OS.write_file _ _ _) as [e|fs']; cbn; [discriminate|].
  intros [= <-]. auto.
Qed.


(** The URL of a job names the artifact that was written, and the artifact
    server finds it there. *)
Lemma synthesize_then_serve_audio request w job :
  fst (synthesize_speech module_file request w) = Return job ->
  let w' := snd (synthesize_speech module_file request w) in
  let artifact := "synthesis_" ++ next_uuid w ++ ".txt" in
  SynthesisResponse.audio_url job = "/audio/" ++ artifact
  /\ exists resp, fst (serve_audio module_file artifact w') = Return resp
                  /\ FileResponse.path resp = AUDIO_DIR module_file // artifact.
Proof.
  intros H w' artifact. apply synthesize_speech_returns in H. fold w' in H.
  destruct H as (_ & Hwrite & Hjob & _).
  split.
  - rewrite Hjob. cbn [SynthesisResponse.audio_url].
    now rewrite artifact_path_parts, name_snoc.
  - apply write_file_inr in Hwrite. destruct Hwrite as (l & Hl & _ & Hdisk).
    fold artifact in Hl. unfold artifact_path in Hl. fold artifact in Hl.
    assert (Hex : OS.exists_ (disk w') (AUDIO_DIR module_file // artifact) = true).
    { unfold OS.exists_.
      rewrite (locate_same_dirs (disk w) (disk w') _ l); [|now rewrite Hdisk..|exact Hl].
      unfold OS.is_file. rewrite Hdisk. cbn [files].
      rewrite lookup_insert_eq, bool_decide_eq_true_2 by eauto.
      apply orb_true_r. }
    unfold serve_audio. run_monad. rewrite Hex. cbn. eauto.
Qed.
(** *** [upload_voice] *)

Lemma upload_voice_rejected file name description language w :
  validate_audio_file file = false ->
  upload_voice module_file file name description language w
  = (Raise (HTTPException 400
       (Msg "Invalid audio file. Supported formats: WAV, MP3, OGG, FLAC")), w).
Proof.
  intros H. unfold upload_voice. run_monad. now rewrite H.
Qed.

Lemma upload_voice_returns file name description language w voice :
  fst (upload_voice module_file file name description language w) = Return voice ->
  let w' := snd (upload_voice module_file file name description language w) in
  validate_audio_file file = true
  /\ OS.write_file (disk w) (stored_path module_file file w)
       (Bytes (UploadFile.content file)) = inr (disk w')
  /\ voice = Voice.mk (next_uuid w) name description language
               (clock w (ticks w))
               (Some (PathLib.to_str (stored_path module_file file w)))
               (Some 10.0%float) (Some 22050%Z)
  /\ voices_db w' = Dict.set (next_uuid w) voice (voices_db w)
  /\ synthesis_cache w' = synthesis_cache w.
Proof.
  unfold upload_voice, stored_path, stored_extension, next_uuid,
    get_audio_duration.
  run_monad.
  destruct (validate_audio_file file); cbn [negb]; [|discriminate].
  cbn [disk].
  destruct (OS.write_file _ _ _) as [e|fs']; cbn; [discriminate|].
  intros [= <-]. auto.
Qed.

Lemma validate_audio_file_true file :
  validate_audio_file file = true
  <-> exists ct, UploadFile.content_type file = Some ct /\ ct ∈ valid_types.
Proof.
  unfold validate_audio_file.
  destruct (UploadFile.content_type file) as [ct|].
  - destruct ct as [|c ct]; cbn [PyStr.truthy negb].
    + split; [discriminate|].
      intros (ct & [= <-] & H). exfalso. revert H. unfold valid_types.
      rewrite !elem_of_cons, elem_of_nil. intuition discriminate.
    + rewrite bool_decide_eq_true. split; [eauto|].
      now intros (ct' & [= <-] & H).
  - split; [discriminate|]. now intros (ct & [=] & _).
Qed.

(** X23. An accepted upload returns as soon as the voices directory is
    there, the operating system accepts the path of the file to write
    (its name, the identifier plus the extension, holds no NUL and at
    most 255 bytes, and the whole path fits) and no directory sits where
    the file goes. *)
Lemma upload_voice_succeeds file name description language w d :
  validate_audio_file file = true ->
  OS.path_ok (stored_path module_file file w) = true ->
  OS.locate (disk w) (VOICES_DIR module_file) = inr d ->
  OS.is_dir (disk w) d = true ->
  OS.is_dir (disk w) (d ++ [next_uuid w ++ stored_extension file]) = false ->
  exists voice,
    fst (upload_voice module_file file name description language w)
    = Return voice.
Proof.
  intros Hv _ Hd Hdir Hfree.
  destruct (stored_name_ok file w) as [Hok Hdd].
  assert (Hloc : OS.locate (disk w) (stored_path module_file file w)
                 = inr (d ++ [(next_uuid w ++ stored_extension file)%string])%list).
  { apply (locate_child _ _ _ _ Hok Hdd). eauto. }
  unfold upload_voice. fold (stored_extension file).
  run_monad. rewrite Hv. cbn [negb disk].
  fold (next_uuid w). fold (stored_path module_file file w).
  unfold OS.write_file. rewrite Hloc, Hfree. cbn. eauto.
Qed.

(** *** [delete_voice] *)

Lemma delete_voice_absent voice_id w :
  Dict.get voice_id (voices_db w) = None ->
  delete_voice voice_id w = (Raise (voice_not_found voice_id), w).
Proof.
  intros H. apply DictFacts.contains_false in H.
  unfold delete_voice. run_monad. now rewrite H.
Qed.

(** What [delete_voice] does to a voice that is there and whose backing
    path is not a directory. *)
Lemma delete_voice_present voice_id w v :
  Dict.get voice_id (voices_db w) = Some v ->
  backing_is_dir (disk w) v = false ->
  let r := delete_voice voice_id w in
  fst r = Return ("Voice '" ++ Voice.name v ++ "' deleted successfully")
  /\ voices_db (snd r) = Dict.del voice_id (voices_db w)
  /\ dirs (disk (snd r)) = dirs (disk w)
  /\ cwd (disk (snd r)) = cwd (disk w)
  /\ (forall p, backing_path v = Some p -> OS.exists_ (disk (snd r)) p = false)
  /\ (forall p, backing_path v = Some p -> OS.exists_ (disk w) p = false ->
                disk (snd r) = disk w)
  /\ (backing_path v = None -> disk (snd r) = disk w).
Proof.
  intros Hget Hnd. cbn zeta.
  assert (Hc : Dict.contains voice_id (voices_db w) = true)
    by (apply DictFacts.contains_true; rewrite Hget; eauto).
  unfold backing_is_dir, backing_path in *.
  unfold delete_voice. run_monad. rewrite Hc. cbn [negb]. rewrite Hget.
  destruct (Voice.file_path v) as [fp|]; [destruct (truthy fp)|];
    cbn [fst snd voices_db disk];
    try (repeat split; auto; intros p; discriminate).
  destruct (OS.exists_ (disk w) (of_str fp)) eqn:Hex.
  - destruct (unlink_existing _ _ Hex Hnd) as (fs' & -> & Hd & Hcwd & Hgone).
    cbn [fst snd voices_db disk]. repeat split; auto.
    + now intros p [= <-].
    + intros p [= <-] H. congruence.
    + discriminate.
  - cbn [fst snd voices_db disk]. repeat split; auto.
    now intros p [= <-].
Qed.

(** *** Serving artifacts *)

Lemma serve_audio_missing filename w :
  OS.exists_ (disk w) (AUDIO_DIR module_file // filename) = false ->
  serve_audio module_file filename w
  = (Raise (HTTPException 404 (Msg "Audio file not found")), w).
Proof.
  intros H. unfold serve_audio. run_monad. now rewrite H.
Qed.

Lemma serve_audio_returns filename w resp :
  fst (serve_audio module_file filename w) = Return resp ->
  OS.exists_ (disk w) (AUDIO_DIR module_file // filename) = true
  /\ FileResponse.path resp = AUDIO_DIR module_file // filename
  /\ snd (serve_audio module_file filename w) = w.
Proof.
  unfold serve_audio. run_monad.
  destruct (OS.exists_ _ _); cbn; [|discriminate].
  intros [= <-]. auto.
Qed.

Lemma prefix_snoc (d : location) (s : string) :
  ((length d <? length (d ++ [s]))%nat
   && bool_decide (take (length d) (d ++ [s]) = d))%list = true.
Proof.
  rewrite length_app. cbn [length].
  rewrite (proj2 (Nat.ltb_lt _ _)) by lia.
  rewrite take_app_length. now rewrite bool_decide_eq_true_2.
Qed.

(** A file name that is a single plain component is served from inside
    the audio directory. *)
Lemma serve_audio_plain_name_inside filename w resp :
  part_ok filename = true -> String.eqb filename ".." = false ->
  fst (serve_audio module_file filename w) = Return resp ->
  strictly_inside (disk w) (AUDIO_DIR module_file) (FileResponse.path resp)
  = true.
Proof.
  intros Hok Hdd Hret. apply serve_audio_returns in Hret.
  destruct Hret as (Hex & -> & _).
  unfold OS.exists_ in Hex.
  destruct (OS.locate (disk w) (AUDIO_DIR module_file // filename))
    as [e|l] eqn:Hl; [discriminate|].
  apply (locate_child _ _ _ _ Hok Hdd) in Hl as Hl'.
  destruct Hl' as (d & Hd & _ & ->).
  unfold strictly_inside. rewrite Hd, Hl. apply prefix_snoc.
Qed.

(** Wherever the service is deployed, [".."] is served from the parent of
    the audio directory. *)
Lemma serve_audio_dot_dot w d :
  OS.locate (disk w) (AUDIO_DIR module_file) = inr d ->
  OS.is_dir (disk w) d = true ->
  OS.is_dir (disk w) (removelast d) = true ->
  fst (serve_audio module_file ".." w)
  = Return (FileResponse.mk (AUDIO_DIR module_file // "..")
              "application/octet-stream" "..")
  /\ OS.locate (disk w) (AUDIO_DIR module_file // "..") = inr (removelast d)
  /\ strictly_inside (disk w) (AUDIO_DIR module_file)
       (AUDIO_DIR module_file // "..") = false.
Proof.
  intros Hd Hdir Hup.
  assert (Hp : AUDIO_DIR module_file // ".."
               = mkPath (root (AUDIO_DIR module_file))
                   (parts (AUDIO_DIR module_file) ++ [".."]))
    by (now apply truediv_single).
  assert (Hl : OS.locate (disk w) (AUDIO_DIR module_file // "..")
               = inr (removelast d)).
  { rewrite Hp. unfold OS.locate in *. cbn [root parts].
    rewrite walk_app, Hd. cbn [OS.walk]. now rewrite Hdir. }
  split; [|split; [exact Hl|]].
  - unfold serve_audio. run_monad. unfold OS.exists_. rewrite Hl, Hup.
    cbn [orb negb fst]. do 2 f_equal.
    unfold suffix. rewrite Hp, name_snoc. reflexivity.
  - unfold strictly_inside. rewrite Hd, Hl.
    rewrite (proj2 (Nat.ltb_ge _ _)); [reflexivity|apply removelast_shorter].
Qed.

(** *** Reachable worlds *)

Lemma registry_ok_set db v :
  registry_ok db = true -> registry_ok (Dict.set (Voice.id v) v db) = true.
Proof.
  unfold registry_ok. induction db as [|[k' v'] db IH]; cbn.
  - now rewrite String.eqb_refl.
  - rewrite andb_true_iff. intros [Hk Hdb].
    destruct (String.eqb (Voice.id v) k') eqn:E; cbn.
    + apply String.eqb_eq in E. subst k'. now rewrite String.eqb_refl, Hdb.
    + now rewrite Hk, IH.
Qed.

Lemma registry_ok_del db k :
  registry_ok db = true -> registry_ok (Dict.del k db) = true.
Proof.
  unfold registry_ok. induction db as [|[k' v'] db IH]; cbn; [reflexivity|].
  rewrite andb_true_iff. intros [Hk Hdb].
  destruct (String.eqb k k'); cbn; [auto|]. now rewrite Hk, IH.
Qed.

Lemma backing_is_dir_same_dirs fs1 fs2 v :
  dirs fs1 = dirs fs2 -> cwd fs1 = cwd fs2 ->
  backing_is_dir fs1 v = backing_is_dir fs2 v.
Proof.
  intros Hd Hc. unfold backing_is_dir.
  destruct (backing_path v) as [p|]; [|reflexivity].
  destruct (OS.locate fs1 p) as [e1|l1] eqn:E1.
  - destruct (OS.locate fs2 p) as [e2|l2] eqn:E2; [reflexivity|].
    apply (locate_same_dirs fs2 fs1) in E2; [congruence|auto..].
  - rewrite (locate_same_dirs fs1 fs2 p l1 Hd Hc E1).
    apply is_dir_same_dirs, Hd.
Qed.

(** What the handlers leave alone. *)

Lemma synthesize_speech_frame request w :
  let w' := snd (synthesize_speech module_file request w) in
  voices_db w' = voices_db w
  /\ dirs (disk w') = dirs (disk w) /\ cwd (disk w') = cwd (disk w).
Proof.
  unfold synthesize_speech, generate_synthesis_audio. run_monad.
  destruct (Dict.contains _ _); cbn [negb]; [|auto].
  cbn [disk].
  destruct (OS.write_file _ _ _) as [e|fs'] eqn:E; cbn; [auto|].
  apply write_file_frame in E. tauto.
Qed.

Lemma post_synthesize_frame b w :
  let w' := snd (post_synthesize module_file b w) in
  voices_db w' = voices_db w
  /\ dirs (disk w') = dirs (disk w) /\ cwd (disk w') = cwd (disk w).
Proof.
  unfold post_synthesize. destruct (SynthesisRequest.validate b).
  - apply synthesize_speech_frame.
  - cbn. auto.
Qed.

Lemma upload_voice_frame file name description language w :
  let r := upload_voice module_file file name description language w in
  dirs (disk (snd r)) = dirs (disk w) /\ cwd (disk (snd r)) = cwd (disk w)
  /\ (voices_db (snd r) = voices_db w \/ exists voice, fst r = Return voice).
Proof.
  unfold upload_voice. run_monad.
  destruct (validate_audio_file file); cbn [negb]; [|cbn; auto].
  cbn [disk].
  destruct (OS.write_file _ _ _) as [e|fs'] eqn:E; cbn; [auto|].
  apply write_file_frame in E. destruct E as [-> ->]. eauto.
Qed.

Lemma delete_voice_frame voice_id w :
  let w' := snd (delete_voice voice_id w) in
  dirs (disk w') = dirs (disk w) /\ cwd (disk w') = cwd (disk w)
  /\ (voices_db w' = voices_db w
      \/ voices_db w' = Dict.del voice_id (voices_db w)).
Proof.
  unfold delete_voice. run_monad.
  destruct (Dict.contains voice_id (voices_db w)); cbn [negb]; [|cbn; auto].
  destruct (Dict.get voice_id (voices_db w)) as [voice|]; [|cbn; auto].
  destruct (Voice.file_path voice) as [fp|]; [|cbn; auto].
  destruct (truthy fp); [|cbn; auto].
  destruct (OS.exists_ _ _); [|cbn; auto].
  destruct (OS.unlink _ _) as [e|fs'] eqn:E; cbn; [auto|].
  apply unlink_frame in E. destruct E as [-> ->]. auto.
Qed.

Lemma serve_audio_frame filename w :
  snd (serve_audio module_file filename w) = w.
Proof.
  unfold serve_audio. run_monad. destruct (OS.exists_ _ _); reflexivity.
Qed.

Lemma get_voice_frame voice_id w : snd (get_voice voice_id w) = w.
Proof.
  unfold get_voice. run_monad. destruct (Dict.get _ _); reflexivity.
Qed.

Lemma get_synthesis_frame synthesis_id w :
  snd (get_synthesis synthesis_id w) = w.
Proof.
  unfold get_synthesis. run_monad. destruct (Dict.get _ _); reflexivity.
Qed.

Lemma backed_by_files_frame w w' :
  dirs (disk w') = dirs (disk w) -> cwd (disk w') = cwd (disk w) ->
  (forall k v, In (k, v) (voices_db w') -> In (k, v) (voices_db w)) ->
  backed_by_files w -> backed_by_files w'.
Proof.
  intros Hd Hc Hsub Hb k v Hin.
  rewrite (backing_is_dir_same_dirs _ (disk w) v Hd Hc). eauto.
Qed.

(** In every reachable world the voice table is consistent and no record
    is backed by a directory. *)
Theorem reachable_invariant w :
  reachable module_file w ->
  registry_ok (voices_db w) = true /\ backed_by_files w.
Proof.
  induction 1 as [w0 Hdb Hcache | w rq Hreach [Hok Hback]].
  - unfold startup_event. run_monad. cbn [snd voices_db].
    rewrite Hdb. split; [reflexivity|].
    intros k v [[= <- <-]|[]]. reflexivity.
  - destruct rq as [| | vid | file name description language | vid | b | sid | | fn];
      cbn [serve].
    + split; [exact Hok|]. apply (backed_by_files_frame w); auto.
    + auto.
    + rewrite get_voice_frame. auto.
    + destruct (upload_voice_frame file name description language w)
        as (Hd & Hc & [Hdb | [voice Hret]]).
      * rewrite Hdb. split; [exact Hok|].
        apply (backed_by_files_frame w); auto. now rewrite Hdb.
      * apply upload_voice_returns in Hret as Hret'.
        destruct Hret' as (_ & Hwrite & Hvoice & Hdb & _).
        assert (Hid : next_uuid w = Voice.id voice)
          by (rewrite Hvoice; reflexivity).
        rewrite Hdb, Hid. split; [now apply registry_ok_set|].
        intros k v Hin. rewrite Hdb, Hid in Hin.
        apply DictFacts.items_set in Hin. destruct Hin as [[-> ->] | Hin].
        -- apply write_file_inr in Hwrite.
           destruct Hwrite as (l & Hl & Hnd & Hdisk).
           unfold backing_is_dir, backing_path.
           rewrite Hvoice at 1. cbn [Voice.file_path].
           rewrite to_str_nonempty
             by apply truediv_parts_ok, VOICES_DIR_parts_ok.
           rewrite stored_path_reads_back.
           rewrite (locate_same_dirs (disk w) _ _ l); auto.
           rewrite (is_dir_same_dirs _ (disk w)); auto.
        -- rewrite (backing_is_dir_same_dirs _ (disk w) v Hd Hc). eauto.
    + destruct (delete_voice_frame vid w) as (Hd & Hc & [Hdb | Hdb]).
      * rewrite Hdb. split; [exact Hok|].
        apply (backed_by_files_frame w); auto. now rewrite Hdb.
      * rewrite Hdb. split; [now apply registry_ok_del|].
        apply (backed_by_files_frame w); auto.
        intros k v Hin. rewrite Hdb in Hin.
        now apply DictFacts.items_del in Hin.
    + destruct (post_synthesize_frame b w) as (Hdb & Hd & Hc).
      rewrite Hdb. split; [exact Hok|].
      apply (backed_by_files_frame w); auto. now rewrite Hdb.
    + rewrite get_synthesis_frame. auto.
    + auto.
    + rewrite serve_audio_frame. auto.
Qed.

(** X24. Hence, in a reachable world, deleting a voice that is there
    returns: the handler's [except] branch is never taken. *)
Corollary reachable_delete_returns w voice_id v :
  reachable module_file w ->
  Dict.get voice_id (voices_db w) = Some v ->
  fst (delete_voice voice_id w)
  = Return ("Voice '" ++ Voice.name v ++ "' deleted successfully").
Proof.
  intros Hreach Hget. destruct (reachable_invariant w Hreach) as [_ Hback].
  apply (delete_voice_present voice_id w v Hget).
  apply (Hback voice_id). now apply DictFacts.get_In.
Qed.

(** *** What uploads and deletions leave alone *)

Lemma upload_voice_keeps_others file name description language w voice k :
  fst (upload_voice module_file file name description language w)
  = Return voice ->
  k <> Voice.id voice ->
  Dict.get k (voices_db
                (snd (upload_voice module_file file name description language w)))
  = Dict.get k (voices_db w).
Proof.
  intros H Hne. apply upload_voice_returns in H.
  destruct H as (_ & _ & Hv & -> & _).
  apply DictFacts.get_set_ne. rewrite Hv in Hne. cbn in Hne. congruence.
Qed.

(** X25. An upload never replaces the built-in voice: whatever its
    outcome, the record under ["default"] is the one that was there. *)
Lemma upload_voice_keeps_default file name description language w :
  Dict.get "default"
    (voices_db (snd (upload_voice module_file file name description language w)))
  = Dict.get "default" (voices_db w).
Proof.
  destruct (upload_voice_frame file name description language w)
    as (_ & _ & [-> | [voice Hret]]); [reflexivity|].
  apply (upload_voice_keeps_others _ _ _ _ _ _ _ Hret).
  apply upload_voice_returns in Hret. destruct Hret as (_ & _ & -> & _).
  cbn [Voice.id]. apply not_eq_sym, to_str_not_default.
Qed.

(** X26. Deleting a voice, whatever the outcome, leaves the record of
    every other identifier as it was. *)
Lemma delete_voice_keeps_others voice_id w k :
  k <> voice_id ->
  Dict.get k (voices_db (snd (delete_voice voice_id w)))
  = Dict.get k (voices_db w).
Proof.
  intros Hne. destruct (delete_voice_frame voice_id w) as (_ & _ & [-> | ->]);
    [reflexivity|].
  apply DictFacts.get_del_ne. congruence.
Qed.

(** *** Claims on synthesis *)

(** C1. A synthesize request whose [voice_id] is not a key of the voice
    table fails with 404 (not found); the job table is left as it was and
    no file is created: the whole world is unchanged. *)
Theorem synthesize_unknown_voice_not_found request w :
  Dict.contains (SynthesisRequest.voice_id request) (voices_db w) = false ->
  let r := synthesize_speech module_file request w in
  fst r = Raise (voice_not_found (SynthesisRequest.voice_id request))
  /\ response_status 201 (fst r) = 404%Z
  /\ synthesis_cache (snd r) = synthesis_cache w
  /\ files (disk (snd r)) = files (disk w)
  /\ snd r = w.
Proof.
  intros H. cbn zeta. rewrite (synthesize_speech_unknown _ _ H).
  cbn. auto.
Qed.

(** C2. The job of a successful synthesize request has for [duration]
    the length of the text times 0.1, in Python's floats (IEEE 754
    binary64); for the five characters of "hello" that is 0.5. *)
Theorem synthesize_duration_estimate request w job :
  fst (synthesize_speech module_file request w) = Return job ->
  SynthesisResponse.duration job
  = Some (float_of_nat (String.length (SynthesisRequest.text request)) * 0.1)%float
  /\ (SynthesisRequest.text request = "hello" ->
      SynthesisResponse.duration job = Some 0.5%float).
Proof.
  intros H. apply synthesize_speech_returns in H.
  destruct H as (_ & _ & -> & _). cbn [SynthesisResponse.duration].
  split; [reflexivity|]. intros ->. reflexivity.
Qed.

(** C7. Round trip: the job a successful synthesize request returns is
    what [get_synthesis] returns for its [id] right afterwards, the same
    record, hence the same [id], [audio_url], [duration], [voice_id],
    [text] and [created_at]. *)
Theorem synthesize_then_get_synthesis request w job :
  fst (synthesize_speech module_file request w) = Return job ->
  let w' := snd (synthesize_speech module_file request w) in
  get_synthesis (SynthesisResponse.id job) w' = (Return job, w').
Proof.
  intros H w'. apply synthesize_speech_returns in H.
  destruct H as (_ & _ & Hjob & Hcache & _). fold w' in Hcache.
  unfold get_synthesis. run_monad. rewrite Hcache.
  replace (SynthesisResponse.id job) with (second_uuid w)
    by (rewrite Hjob; reflexivity).
  now rewrite DictFacts.get_set_eq.
Qed.

(** C8. A body whose text is empty or longer than 5000 characters, or
    whose speed or pitch is below 0.5 or above 2.0, is refused with 422
    before the handler runs: no job is added, no file is written, the
    world is unchanged. *)
Theorem post_synthesize_invalid_body b w :
  String.length (SynthesisRequest.body_text b) = 0%nat
  \/ (5000 < String.length (SynthesisRequest.body_text b))%nat
  \/ (exists x, SynthesisRequest.body_speed b = Some x
        /\ (PrimFloat.ltb x 0.5 = true \/ PrimFloat.ltb 2.0 x = true))
  \/ (exists x, SynthesisRequest.body_pitch b = Some x
        /\ (PrimFloat.ltb x 0.5 = true \/ PrimFloat.ltb 2.0 x = true)) ->
  let r := post_synthesize module_file b w in
  fst r = Raise RequestValidationError
  /\ response_status 201 (fst r) = 422%Z
  /\ synthesis_cache (snd r) = synthesis_cache w
  /\ files (disk (snd r)) = files (disk w)
  /\ snd r = w.
Proof.
  intros H. cbn zeta. unfold post_synthesize.
  assert (Hv : SynthesisRequest.validate b = None).
  { unfold SynthesisRequest.validate, SynthesisRequest.text_ok.
    destruct H as [H | [H | [(x & -> & H) | (x & -> & H)]]].
    - rewrite H. reflexivity.
    - apply Nat.leb_gt in H. rewrite H, andb_false_r. reflexivity.
    - cbn [default from_option id].
      rewrite (FloatFacts.outside_range x H), andb_false_r. reflexivity.
    - cbn [default from_option id].
      rewrite (FloatFacts.outside_range x H), andb_false_r. reflexivity. }
  rewrite Hv. cbn. auto.
Qed.

(** *** Claims on the voice registry *)

(** C3. Deleting an id that is not in the voice table fails with 404 and
    changes nothing.  Deleting one that is there (its backing path not
    being a directory, which [unlink] refuses) removes the record, so that
    no record of that [id] is listed afterwards in a consistent table;
    nothing exists any more at the backing path, whether or not a file
    was there before; deleting the same id again fails with 404. *)
Theorem delete_voice_removes_record_and_file voice_id w :
  match Dict.get voice_id (voices_db w) with
  | Some v => backing_is_dir (disk w) v
  | None => false
  end = false ->
  let r := delete_voice voice_id w in
  match Dict.get voice_id (voices_db w) with
  | None =>
      fst r = Raise (voice_not_found voice_id)
      /\ response_status 200 (fst r) = 404%Z
      /\ snd r = w
  | Some v =>
      fst r = Return ("Voice '" ++ Voice.name v ++ "' deleted successfully")
      /\ Dict.get voice_id (voices_db (snd r)) = None
      /\ (registry_ok (voices_db w) = true ->
          forall v', In v' (Dict.values (voices_db (snd r))) ->
                     Voice.id v' <> voice_id)
      /\ (forall p, backing_path v = Some p ->
                    OS.exists_ (disk (snd r)) p = false)
      /\ delete_voice voice_id (snd r)
         = (Raise (voice_not_found voice_id), snd r)
      /\ response_status 200 (fst (delete_voice voice_id (snd r))) = 404%Z
  end.
Proof.
  intros Hnd. cbn zeta.
  destruct (Dict.get voice_id (voices_db w)) as [v|] eqn:Hget.
  - destruct (delete_voice_present _ _ _ Hget Hnd)
      as (Hret & Hdb & _ & _ & Hgone & _).
    rewrite Hdb. split; [exact Hret|].
    split; [apply DictFacts.get_del_eq|]. split; [|split; [exact Hgone|]].
    + intros Hok v' Hin Heq. apply DictFacts.values_In in Hin.
      destruct Hin as [k Hin].
      apply DictFacts.items_del in Hin. destruct Hin as [Hne Hin].
      apply (registry_ok_In _ _ _ Hok) in Hin. congruence.
    + assert (Hagain : delete_voice voice_id (snd (delete_voice voice_id w))
                       = (Raise (voice_not_found voice_id),
                          snd (delete_voice voice_id w))).
      { apply delete_voice_absent. rewrite Hdb. apply DictFacts.get_del_eq. }
      split; [exact Hagain | now rewrite Hagain].
  - rewrite (delete_voice_absent _ _ Hget). auto.
Qed.

(** C4. An upload whose declared content type is missing or not one of
    audio/wav, audio/mpeg, audio/mp3, audio/ogg, audio/flac fails with
    400 (invalid input) and registers no voice: the voice table, and the
    whole world, is unchanged. *)
Theorem upload_invalid_content_type file name description language w :
  match UploadFile.content_type file with
  | Some ct =>
      ct ∉ ["audio/wav"; "audio/mpeg"; "audio/mp3"; "audio/ogg"; "audio/flac"]
  | None => True
  end ->
  let r := upload_voice module_file file name description language w in
  (exists d, fst r = Raise (HTTPException 400 d))
  /\ response_status 201 (fst r) = 400%Z
  /\ voices_db (snd r) = voices_db w
  /\ snd r = w.
Proof.
  intros H. cbn zeta.
  assert (Hv : validate_audio_file file = false).
  { destruct (validate_audio_file file) eqn:E; [|reflexivity].
    apply validate_audio_file_true in E. destruct E as (ct & Hct & Hin).
    rewrite Hct in H. now destruct H. }
  rewrite (upload_voice_rejected _ _ _ _ _ Hv). cbn. eauto.
Qed.

(** C10. The record of a successful upload has [duration] 10.0, and so
    has the record filed in the voice table; [get_audio_duration] returns
    10.0 for every path, never [None]. *)
Theorem upload_duration_is_ten file name description language w voice :
  fst (upload_voice module_file file name description language w)
  = Return voice ->
  let w' := snd (upload_voice module_file file name description language w) in
  Voice.duration voice = Some 10.0%float
  /\ (exists v, Dict.get (Voice.id voice) (voices_db w') = Some v
                /\ Voice.duration v = Some 10.0%float)
  /\ (forall p, get_audio_duration p = Some 10.0%float).
Proof.
  intros H w'. apply upload_voice_returns in H.
  destruct H as (_ & _ & Hv & Hdb & _). fold w' in Hdb.
  split; [rewrite Hv; reflexivity|]. split; [|reflexivity].
  exists voice. rewrite Hdb.
  replace (Voice.id voice) with (next_uuid w) by (rewrite Hv; reflexivity).
  rewrite DictFacts.get_set_eq. split; [reflexivity|]. rewrite Hv. reflexivity.
Qed.

(** C9. Deleting a voice leaves the synthesis job table as it was,
    whatever the outcome of the call and whatever jobs refer to the
    voice. *)
Theorem delete_voice_keeps_jobs voice_id w :
  synthesis_cache (snd (delete_voice voice_id w)) = synthesis_cache w.
Proof.
  unfold delete_voice. run_monad.
  destruct (Dict.contains voice_id (voices_db w)); cbn [negb]; [|reflexivity].
  destruct (Dict.get voice_id (voices_db w)) as [voice|]; [|reflexivity].
  destruct (Voice.file_path voice) as [fp|]; [|reflexivity].
  destruct (PyStr.truthy fp); [|reflexivity].
  destruct (OS.exists_ _ _); [|reflexivity].
  destruct (OS.unlink _ _); reflexivity.
Qed.

End ServiceFacts.

(** ** The concrete deployment *)

Module Deployed.
Import Scenario.

(** C6, at the file name [".."] (as in [GET /audio/..]): the handler finds
    that the path exists and returns a response for it, although it
    leads to the storage directory, the parent of the audio directory. *)
Theorem serve_audio_dot_dot_leaves_audio_dir :
  let r := serve_audio main_py ".." booted in
  let served := mkPath true ["srv"; "backend"; "storage"; "audio"; ".."] in
  fst r = Return (FileResponse.mk served "application/octet-stream" "..")
  /\ OS.locate (disk booted) (AUDIO_DIR main_py)
     = inr ["srv"; "backend"; "storage"; "audio"]
  /\ OS.locate (disk booted) served = inr ["srv"; "backend"; "storage"]
  /\ strictly_inside (disk booted) (AUDIO_DIR main_py) served = false.
Proof. cbn zeta. repeat apply conj; vm_compute; reflexivity. Qed.

(** The concrete worlds are reachable ones. *)
Example booted_reachable : reachable main_py booted.
Proof.
  assert (H : booted = snd (startup_event (snd (ensure_directories main_py blank))))
    by (vm_compute; reflexivity).
  rewrite H. apply reachable_startup; vm_compute; reflexivity.
Qed.

Example uploaded_reachable : reachable main_py uploaded.
Proof.
  assert (H : uploaded
              = serve main_py (PostVoices a_wav "Custom Voice" "" "en") booted)
    by (vm_compute; reflexivity).
  rewrite H. apply reachable_serve, booted_reachable.
Qed.

Example synthesized_reachable : reachable main_py synthesized.
Proof.
  assert (H : synthesized
              = serve main_py
                  (PostSynthesize
                     (SynthesisRequest.mkBody "hello" "default" None None))
                  booted)
    by (vm_compute; reflexivity).
  rewrite H. apply reachable_serve, booted_reachable.
Qed.

(** The scenarios of the specification. *)
Example hello_scenario :
  fst (post_synthesize main_py
         (SynthesisRequest.mkBody "hello" "default" (Some 1.0%float) (Some 1.0%float))
         booted)
  = Return hello_job
  /\ SynthesisResponse.duration hello_job = Some 0.5%float
  /\ SynthesisResponse.audio_url hello_job
     = "/audio/synthesis_00000000-0000-4000-8000-000000000000.txt"
  /\ SynthesisResponse.id hello_job = "00000000-0000-4000-8000-000000000001".
Proof. repeat apply conj; vm_compute; reflexivity. Qed.

Example unknown_voice_scenario :
  fst (get_voice "unknown-id" booted)
  = Raise (HTTPException 404 (Msg "Voice with ID 'unknown-id' not found")).
Proof. vm_compute. reflexivity. Qed.

Example missing_audio_scenario :
  response_status 200 (fst (serve_audio main_py "does-not-exist.wav" booted))
  = 404%Z.
Proof. vm_compute. reflexivity. Qed.

Example served_artifact_scenario :
  fst (serve_audio main_py
         "synthesis_00000000-0000-4000-8000-000000000000.txt" synthesized)
  = Return (FileResponse.mk
              (AUDIO_DIR main_py
               // "synthesis_00000000-0000-4000-8000-000000000000.txt")
              "text/plain"
              "synthesis_00000000-0000-4000-8000-000000000000.txt").
Proof. vm_compute. reflexivity. Qed.

(** A job outlives its voice: "hello" is synthesized with the default
    voice, the voice is deleted, and the job is still served. *)
Example job_outlives_its_voice :
  let w := snd (delete_voice "default" synthesized) in
  Dict.get "default" (voices_db w) = None
  /\ get_synthesis (SynthesisResponse.id hello_job) w = (Return hello_job, w)
  /\ SynthesisResponse.voice_id hello_job = "default".
Proof. cbn zeta. repeat apply conj; vm_compute; reflexivity. Qed.

End Deployed.

(** ** The claims at work on the concrete deployment *)

Module Witness.
Import Scenario.

Lemma synthesize_unknown_voice_not_found_witness :
  Dict.contains "nobody" (voices_db booted) = false
  /\ fst (synthesize_speech main_py stranger booted)
     = Raise (voice_not_found "nobody")
  /\ snd (synthesize_speech main_py stranger booted) = booted.
Proof.
  split; [vm_compute; reflexivity|].
  pose proof (synthesize_unknown_voice_not_found main_py stranger booted) as H.
  cbn zeta in H. split; apply H; vm_compute; reflexivity.
Defined.

Lemma synthesize_duration_estimate_witness :
  fst (synthesize_speech main_py hello booted) = Return hello_job
  /\ SynthesisResponse.duration hello_job = Some 0.5%float.
Proof.
  assert (H : fst (synthesize_speech main_py hello booted) = Return hello_job)
    by (vm_compute; reflexivity).
  split; [exact H|].
  destruct (synthesize_duration_estimate main_py hello booted hello_job H)
    as (_ & Hhello).
  apply Hhello. reflexivity.
Defined.

Lemma synthesize_then_get_synthesis_witness :
  fst (synthesize_speech main_py hello booted) = Return hello_job
  /\ get_synthesis (SynthesisResponse.id hello_job) synthesized
     = (Return hello_job, synthesized).
Proof.
  assert (H : fst (synthesize_speech main_py hello booted) = Return hello_job)
    by (vm_compute; reflexivity).
  split; [exact H|].
  exact (synthesize_then_get_synthesis main_py hello booted hello_job H).
Defined.

Lemma post_synthesize_invalid_body_witness :
  fst (post_synthesize main_py too_fast booted) = Raise RequestValidationError
  /\ snd (post_synthesize main_py too_fast booted) = booted.
Proof.
  pose proof (post_synthesize_invalid_body main_py too_fast booted) as H.
  cbn zeta in H.
  split; apply H; right; right; left; exists 3.0%float;
    (split; [reflexivity | right; vm_compute; reflexivity]).
Defined.

Lemma upload_invalid_content_type_witness :
  response_status 201
    (fst (upload_voice main_py notes_txt "Custom Voice" "" "en" booted))
  = 400%Z
  /\ voices_db (snd (upload_voice main_py notes_txt "Custom Voice" "" "en" booted))
     = voices_db booted.
Proof.
  pose proof (upload_invalid_content_type main_py notes_txt
                "Custom Voice" "" "en" booted) as H.
  cbn zeta in H.
  split; apply H; cbn; apply (bool_decide_unpack _); vm_compute; exact I.
Defined.

Lemma upload_duration_is_ten_witness :
  fst (upload_voice main_py a_wav "Custom Voice" "" "en" booted)
  = Return uploaded_voice
  /\ Voice.duration uploaded_voice = Some 10.0%float.
Proof.
  assert (H : fst (upload_voice main_py a_wav "Custom Voice" "" "en" booted)
              = Return uploaded_voice) by (vm_compute; reflexivity).
  split; [exact H|].
  destruct (upload_duration_is_ten main_py a_wav "Custom Voice" "" "en"
              booted uploaded_voice H) as (Hten & _).
  exact Hten.
Defined.

Lemma delete_voice_removes_record_and_file_witness :
  Dict.get (Voice.id uploaded_voice) (voices_db uploaded) = Some uploaded_voice
  /\ Dict.get (Voice.id uploaded_voice)
       (voices_db (snd (delete_voice (Voice.id uploaded_voice) uploaded)))
     = None
  /\ response_status 200
       (fst (delete_voice (Voice.id uploaded_voice)
               (snd (delete_voice (Voice.id uploaded_voice) uploaded))))
     = 404%Z.
Proof.
  assert (Hget : Dict.get (Voice.id uploaded_voice) (voices_db uploaded)
                 = Some uploaded_voice) by (vm_compute; reflexivity).
  split; [exact Hget|].
  pose proof (delete_voice_removes_record_and_file
                (Voice.id uploaded_voice) uploaded) as H.
  cbn zeta in H. rewrite Hget in H.
  split; apply H; vm_compute; reflexivity.
Defined.

End Witness.

(** * Further properties of the handlers *)

(** ** More on dictionaries: order and keys *)

Module DictOrder.
Section Facts.
Context {V : Type}.
Implicit Types (d : Dict.t V) (k : string) (v : V).

Lemma del_absent d k : Dict.contains k d = false -> Dict.del k d = d.
Proof.
  unfold Dict.contains. induction d as [|[k' v'] d IH]; cbn; [reflexivity|].
  destruct (String.eqb k k'); [discriminate|]. intros H. now rewrite IH.
Qed.

Lemma del_set_fresh d k v :
  Dict.contains k d = false -> Dict.del k (Dict.set k v d) = d.
Proof.
  intros H. rewrite (DictFacts.set_fresh _ _ _ H).
  induction d as [|[k' v'] d IH]; cbn.
  - now rewrite String.eqb_refl.
  - unfold Dict.contains in H. cbn in H.
    destruct (String.eqb k k'); [discriminate|]. now rewrite IH.
Qed.

Lemma keys_set d k v :
  Dict.keys (Dict.set k v d)
  = if Dict.contains k d then Dict.keys d else (Dict.keys d ++ [k])%list.
Proof.
  unfold Dict.contains, Dict.keys.
  induction d as [|[k' v'] d IH]; cbn; [reflexivity|].
  destruct (String.eqb k k') eqn:E; cbn; [reflexivity|].
  rewrite IH. now destruct (Dict.get k d).
Qed.

Lemma keys_del_In d k k' :
  In k' (Dict.keys (Dict.del k d)) -> k' <> k /\ In k' (Dict.keys d).
Proof.
  unfold Dict.keys. induction d as [|[k0 v0] d IH]; cbn; [tauto|].
  destruct (String.eqb k k0) eqn:E; cbn.
  - intros H. destruct (IH H). tauto.
  - apply String.eqb_neq in E. intros [<-|H]; [auto|]. destruct (IH H). tauto.
Qed.

Lemma keys_In_contains d k : In k (Dict.keys d) <-> Dict.contains k d = true.
Proof.
  unfold Dict.contains, Dict.keys.
  induction d as [|[k' v'] d IH]; cbn; [split; [tauto|discriminate]|].
  destruct (String.eqb k k') eqn:E.
  - apply String.eqb_eq in E. subst. tauto.
  - apply String.eqb_neq in E. rewrite <- IH. split; [|tauto].
    intros [H|H]; [congruence|exact H].
Qed.

Lemma NoDup_keys_set d k v :
  NoDup (Dict.keys d) -> NoDup (Dict.keys (Dict.set k v d)).
Proof.
  intros H. rewrite keys_set. destruct (Dict.contains k d) eqn:E; [exact H|].
  apply NoDup_app. split; [exact H|]. split.
  - intros x Hx Hin. apply list_elem_of_In, keys_In_contains in Hx.
    apply list_elem_of_singleton in Hin. subst. congruence.
  - apply NoDup_singleton.
Qed.

Lemma NoDup_keys_del d k :
  NoDup (Dict.keys d) -> NoDup (Dict.keys (Dict.del k d)).
Proof.
  unfold Dict.keys. induction d as [|[k' v'] d IH]; cbn; [auto|].
  intros H. apply NoDup_cons in H. destruct H as [Hk Hd].
  destruct (String.eqb k k'); cbn; [auto|].
  apply NoDup_cons. split; [|auto].
  intros Hin. apply Hk. apply list_elem_of_In. apply list_elem_of_In in Hin.
  now apply (keys_del_In d k k') in Hin.
Qed.

(** Deleting a key that is there, from a dictionary whose keys are
    distinct, takes exactly one item away. *)
Lemma length_del d k :
  NoDup (Dict.keys d) -> Dict.contains k d = true ->
  S (length (Dict.del k d)) = length d.
Proof.
  unfold Dict.contains, Dict.keys.
  induction d as [|[k' v'] d IH]; cbn; [discriminate|].
  intros H. apply NoDup_cons in H. destruct H as [Hk Hd].
  destruct (String.eqb k k') eqn:E; cbn.
  - intros _. apply String.eqb_eq in E. subst k'.
    rewrite del_absent; [reflexivity|].
    destruct (Dict.contains k d) eqn:C; [|reflexivity].
    exfalso. apply Hk, list_elem_of_In, keys_In_contains, C.
  - intros H. now rewrite IH.
Qed.

End Facts.
End DictOrder.

(** ** More on the file system *)

Module OSMore.
Import PyStr PathLib StrFacts PathFacts OSFacts.

Lemma is_file_absent fs l :
  OS.is_file fs l = false -> files fs !! l = None.
Proof.
  unfold OS.is_file. intros H. apply bool_decide_eq_false in H.
  destruct (files fs !! l); [exfalso; eauto | reflexivity].
Qed.

(** Unlinking a path that exists and is not a directory removes the file at
    its location and nothing else. *)
Lemma unlink_exact fs p l :
  OS.locate fs p = inr l -> OS.is_dir fs l = false ->
  OS.exists_ fs p = true ->
  OS.unlink fs p = inr (mkFS (dirs fs) (delete l (files fs)) (cwd fs)).
Proof.
  unfold OS.exists_, OS.unlink. intros -> ->. cbn [orb]. now intros ->.
Qed.

Lemma is_dir_mono fs1 fs2 l :
  dirs fs1 ⊆ dirs fs2 -> OS.is_dir fs1 l = true -> OS.is_dir fs2 l = true.
Proof.
  unfold OS.is_dir. intros Hsub. rewrite !orb_true_iff, !bool_decide_eq_true.
  intros [H|H]; [auto|]. right. now apply Hsub.
Qed.

(** A path that leads somewhere keeps leading there when directories are
    added. *)
Lemma walk_mono fs1 fs2 cur ps l :
  dirs fs1 ⊆ dirs fs2 ->
  OS.walk fs1 cur ps = inr l -> OS.walk fs2 cur ps = inr l.
Proof.
  intros Hsub. revert cur. induction ps as [|c ps IH]; intros cur; [auto|].
  cbn [OS.walk]. destruct (OS.is_dir fs1 cur) eqn:E.
  - rewrite (is_dir_mono _ _ _ Hsub E). apply IH.
  - destruct (OS.is_file fs1 cur); discriminate.
Qed.

(** What a successful [mkdir_walk] leaves: the path leads to a directory,
    directories were only added, files and working directory are as
    before. *)
Lemma mkdir_walk_creates ps : forall fs cur fs',
  OS.is_dir fs cur = true ->
  OS.mkdir_walk fs cur ps = inr fs' ->
  (exists l, OS.walk fs' cur ps = inr l /\ OS.is_dir fs' l = true)
  /\ dirs fs ⊆ dirs fs' /\ files fs' = files fs /\ cwd fs' = cwd fs.
Proof.
  induction ps as [|c ps IH]; intros fs cur fs' Hcur.
  - cbn. intros [= <-]. split; [eauto|]. split; [reflexivity|auto].
  - cbn [OS.mkdir_walk OS.walk]. cbn zeta.
    set (next := if String.eqb c ".." then removelast cur else (cur ++ [c])%list).
    destruct (OS.is_dir fs next) eqn:Hnext.
    + intros H. destruct (IH _ _ _ Hnext H) as (Hl & Hsub & Hf & Hc).
      rewrite (is_dir_mono _ _ _ Hsub Hcur). auto.
    + destruct (OS.is_file fs next); [discriminate|].
      intros H.
      assert (Hnext' : OS.is_dir
                (mkFS ({[ next ]} ∪ dirs fs) (files fs) (cwd fs)) next = true).
      { unfold OS.is_dir. cbn [dirs]. apply orb_true_iff. right.
        apply bool_decide_eq_true, elem_of_union. left.
        now apply elem_of_singleton. }
      destruct (IH _ _ _ Hnext' H) as (Hl & Hsub & Hf & Hc).
      cbn [dirs files cwd] in *.
      assert (Hsub' : dirs fs ⊆ dirs fs').
      { intros x Hx. apply Hsub, elem_of_union. now right. }
      rewrite (is_dir_mono _ _ _ Hsub' Hcur). auto.
Qed.

(** With [exist_ok], making directories that are all there changes
    nothing. *)
Lemma mkdir_walk_existing ps : forall fs cur l,
  OS.walk fs cur ps = inr l -> OS.is_dir fs l = true ->
  OS.mkdir_walk fs cur ps = inr fs.
Proof.
  induction ps as [|c ps IH]; intros fs cur l; [reflexivity|].
  cbn [OS.mkdir_walk OS.walk]. cbn zeta.
  set (next := if String.eqb c ".." then removelast cur else (cur ++ [c])%list).
  destruct (OS.is_dir fs cur); [|destruct (OS.is_file fs cur); discriminate].
  intros Hw Hl.
  assert (Hnext : OS.is_dir fs next = true).
  { destruct ps as [|c' ps'].
    - cbn in Hw. now injection Hw as ->.
    - cbn [OS.walk] in Hw. destruct (OS.is_dir fs next); [reflexivity|].
      destruct (OS.is_file fs next); discriminate. }
  rewrite Hnext. now apply (IH fs next l).
Qed.

End OSMore.

(** ** More on strings: the suffix of a name *)

Module SuffixFacts.
Import PyStr PathLib StrFacts.

Lemma rfind_dot_app s t :
  rfind_dot (s ++ t)
  = match rfind_dot t with
    | Some i => Some (String.length s + i)%nat
    | None => rfind_dot s
    end.
Proof.
  induction s as [|c s IH].
  - change (EmptyString ++ t) with t. now destruct (rfind_dot t).
  - change (String c s ++ t) with (String c (s ++ t)). cbn [rfind_dot].
    rewrite IH. now destruct (rfind_dot t).
Qed.

Lemma length_app s t :
  String.length (s ++ t) = (String.length s + String.length t)%nat.
Proof.
  induction s as [|c s IH]; [reflexivity|].
  change (String c s ++ t) with (String c (s ++ t)). cbn. now rewrite IH.
Qed.

Lemma substring_tail s t :
  String.substring (String.length s) (String.length t) (s ++ t) = t.
Proof.
  induction s as [|c s IH].
  - change (EmptyString ++ t) with t. cbn [String.length].
    induction t as [|c t IHt]; [reflexivity|]. cbn. now rewrite IHt.
  - change (String c s ++ t) with (String c (s ++ t)). cbn. exact IH.
Qed.

(** A name made of a non-empty stem and [".txt"] has suffix [".txt"]. *)
Lemma suffix_txt r l stem :
  truthy stem = true ->
  suffix (mkPath r (l ++ [stem ++ ".txt"])) = ".txt".
Proof.
  intros Hstem. unfold suffix. rewrite PathFacts.name_snoc.
  rewrite rfind_dot_app. change (rfind_dot ".txt") with (Some 0%nat).
  rewrite length_app. change (String.length ".txt") with 4%nat.
  destruct stem as [|c stem]; [discriminate|]. cbn [String.length].
  replace ((0 <? S (String.length stem) + 0)
           && (S (String.length stem) + 0 <? S (String.length stem) + 4 - 1))%nat
    with true.
  2:{ symmetry. apply andb_true_iff. split; apply Nat.ltb_lt; lia. }
  replace (S (String.length stem) + 4 - (S (String.length stem) + 0))%nat
    with (String.length ".txt") by (cbn; lia).
  replace (S (String.length stem) + 0)%nat
    with (String.length (String c stem)) by (cbn; lia).
  apply substring_tail.
Qed.

End SuffixFacts.

(** ** Further properties of the service *)

Section Coverage.

Variable module_file : string.
Import PyStr PathLib StrFacts PathFacts UUIDFacts OSFacts OSMore.

(** *** Outcomes of the handlers, case by case *)

Lemma upload_voice_cases file name description language w :
  let r := upload_voice module_file file name description language w in
  (validate_audio_file file = false /\ response_status 201 (fst r) = 400%Z
   /\ snd r = w)
  \/ (validate_audio_file file = true
      /\ exists e,
           OS.write_file (disk w) (stored_path module_file file w)
             (Bytes (UploadFile.content file)) = inl e
           /\ fst r = Raise (HTTPException 500
                        (MsgStr "Failed to upload voice: " (OSException e)))
           /\ voices_db (snd r) = voices_db w
           /\ synthesis_cache (snd r) = synthesis_cache w
           /\ disk (snd r) = disk w)
  \/ (validate_audio_file file = true /\ exists voice, fst r = Return voice).
Proof.
  cbn zeta. unfold upload_voice. fold (stored_extension file). run_monad.
  destruct (validate_audio_file file); cbn [negb]; [|left; cbn; auto].
  right. cbn [disk]. fold (next_uuid w). fold (stored_path module_file file w).
  destruct (OS.write_file _ _ _) as [e|fs']; cbn; [left|right]; eauto 10.
Qed.

Lemma synthesize_speech_cases request w :
  let r := synthesize_speech module_file request w in
  (Dict.contains (SynthesisRequest.voice_id request) (voices_db w) = false
   /\ response_status 201 (fst r) = 404%Z /\ snd r = w)
  \/ (Dict.contains (SynthesisRequest.voice_id request) (voices_db w) = true
      /\ exists e,
           OS.write_file (disk w) (artifact_path module_file w)
             (Placeholder (next_uuid w) (SynthesisRequest.text request)
                (SynthesisRequest.voice_id request)
                (SynthesisRequest.speed request)
                (SynthesisRequest.pitch request) (clock w (ticks w))) = inl e
           /\ fst r = Raise (HTTPException 500
                        (MsgStr "Failed to synthesize speech: " (OSException e)))
           /\ voices_db (snd r) = voices_db w
           /\ synthesis_cache (snd r) = synthesis_cache w
           /\ disk (snd r) = disk w)
  \/ (Dict.contains (SynthesisRequest.voice_id request) (voices_db w) = true
      /\ exists job, fst r = Return job).
Proof.
  cbn zeta. unfold synthesize_speech, generate_synthesis_audio. run_monad.
  destruct (Dict.contains _ _); cbn [negb]; [|left; cbn; auto].
  right. cbn [disk]. fold (next_uuid w). fold (artifact_path module_file w).
  destruct (OS.write_file _ _ _) as [e|fs']; cbn; [left|right]; eauto 10.
Qed.

(** The world after deleting a voice that is there and is not backed by a
    directory: the record is gone, and so is the file at the backing
    location, if there was one; nothing else has changed. *)
Lemma delete_voice_effect voice_id w v :
  Dict.get voice_id (voices_db w) = Some v ->
  backing_is_dir (disk w) v = false ->
  let w' := snd (delete_voice voice_id w) in
  voices_db w' = Dict.del voice_id (voices_db w)
  /\ synthesis_cache w' = synthesis_cache w
  /\ dirs (disk w') = dirs (disk w) /\ cwd (disk w') = cwd (disk w)
  /\ match backing_path v with
     | Some p =>
         match OS.locate (disk w) p with
         | inr l => files (disk w') = delete l (files (disk w))
         | inl _ => files (disk w') = files (disk w)
         end
     | None => files (disk w') = files (disk w)
     end.
Proof.
  intros Hget Hnd. cbn zeta.
  assert (Hc : Dict.contains voice_id (voices_db w) = true)
    by (apply DictFacts.contains_true; rewrite Hget; eauto).
  unfold backing_is_dir, backing_path in *.
  unfold delete_voice. run_monad. rewrite Hc. cbn [negb]. rewrite Hget.
  destruct (Voice.file_path v) as [fp|]; [destruct (truthy fp)|];
    cbn [fst snd voices_db synthesis_cache disk]; auto.
  destruct (OS.exists_ (disk w) (of_str fp)) eqn:Hex.
  - unfold OS.exists_ in Hex.
    destruct (OS.locate (disk w) (of_str fp)) as [e|l] eqn:Hl; [discriminate|].
    assert (Hex' : OS.exists_ (disk w) (of_str fp) = true)
      by (unfold OS.exists_; now rewrite Hl).
    rewrite (unlink_exact _ _ _ Hl Hnd Hex').
    cbn [fst snd voices_db synthesis_cache disk dirs files cwd]. auto.
  - cbn [fst snd voices_db synthesis_cache disk]. repeat split; auto.
    unfold OS.exists_ in Hex.
    destruct (OS.locate (disk w) (of_str fp)) as [e|l]; [reflexivity|].
    apply orb_false_iff in Hex. destruct Hex as [_ Hfile].
    symmetry. apply delete_id. now apply is_file_absent.
Qed.

(** How a request changes the two tables. *)
Lemma serve_voices_db rq w :
  voices_db (serve module_file rq w) = voices_db w
  \/ (exists v, voices_db (serve module_file rq w)
                = Dict.set (Voice.id v) v (voices_db w))
  \/ (exists k, voices_db (serve module_file rq w) = Dict.del k (voices_db w)).
Proof.
  destruct rq as [| | vid | file name description language | vid | b | sid | | fn];
    cbn [serve].
  - now left.
  - now left.
  - rewrite get_voice_frame. now left.
  - destruct (upload_voice_frame module_file file name description language w)
      as (_ & _ & [Hdb | [voice Hret]]); [now left|].
    apply upload_voice_returns in Hret. destruct Hret as (_ & _ & Hv & Hdb & _).
    right. left. exists voice. rewrite Hdb. now rewrite Hv at 2.
  - destruct (delete_voice_frame vid w) as (_ & _ & [Hdb | Hdb]);
      [now left | right; right; eauto].
  - destruct (post_synthesize_frame module_file b w) as (Hdb & _). now left.
  - rewrite get_synthesis_frame. now left.
  - now left.
  - rewrite serve_audio_frame. now left.
Qed.

Lemma serve_synthesis_cache rq w :
  synthesis_cache (serve module_file rq w) = synthesis_cache w
  \/ (exists k job, synthesis_cache (serve module_file rq w)
                    = Dict.set k job (synthesis_cache w)).
Proof.
  destruct rq as [| | vid | file name description language | vid | b | sid | | fn];
    cbn [serve].
  - now left.
  - now left.
  - rewrite get_voice_frame. now left.
  - destruct (upload_voice_cases file name description language w)
      as [(_ & _ & ->) | [(_ & e & _ & _ & _ & H & _) | (_ & voice & Hret)]];
      [now left | now left |].
    apply upload_voice_returns in Hret. destruct Hret as (_ & _ & _ & _ & H).
    now left.
  - left. unfold delete_voice. run_monad.
    destruct (Dict.contains vid (voices_db w)); cbn [negb]; [|reflexivity].
    destruct (Dict.get vid (voices_db w)) as [voice|]; [|reflexivity].
    destruct (Voice.file_path voice) as [fp|]; [|reflexivity].
    destruct (truthy fp); [|reflexivity].
    destruct (OS.exists_ _ _); [|reflexivity].
    destruct (OS.unlink _ _); reflexivity.
  - unfold post_synthesize.
    destruct (SynthesisRequest.validate b) as [request|]; [|now left].
    destruct (synthesize_speech_cases request w)
      as [(_ & _ & ->) | [(_ & e & _ & _ & _ & H & _) | (_ & job & Hret)]];
      [now left | now left |].
    apply synthesize_speech_returns in Hret.
    destruct Hret as (_ & _ & _ & H & _). right. eauto.
  - rewrite get_synthesis_frame. now left.
  - now left.
  - rewrite serve_audio_frame. now left.
Qed.

Lemma registry_ok_keys db :
  registry_ok db = true -> List.map Voice.id (Dict.values db) = Dict.keys db.
Proof.
  unfold registry_ok, Dict.values, Dict.keys.
  induction db as [|[k v] db IH]; cbn; [reflexivity|].
  rewrite andb_true_iff. intros [Hk Hdb]. apply String.eqb_eq in Hk.
  now rewrite IH, Hk.
Qed.

(** In every reachable world the keys of the voice table are distinct. *)
Lemma reachable_keys_distinct w :
  reachable module_file w -> NoDup (Dict.keys (voices_db w)).
Proof.
  induction 1 as [w0 Hdb Hcache | w rq Hreach IH].
  - unfold startup_event. run_monad. cbn [snd voices_db]. rewrite Hdb.
    cbn. apply NoDup_singleton.
  - destruct (serve_voices_db rq w) as [-> | [[v ->] | [k ->]]].
    + exact IH.
    + now apply DictOrder.NoDup_keys_set.
    + now apply DictOrder.NoDup_keys_del.
Qed.

(** *** Uploads *)

(** X1. Round trip: the record a successful upload returns is the one
    [get_voice] returns for its [id] right afterwards. *)
Theorem upload_then_get_voice file name description language w voice :
  fst (upload_voice module_file file name description language w)
  = Return voice ->
  let w' := snd (upload_voice module_file file name description language w) in
  get_voice (Voice.id voice) w' = (Return voice, w').
Proof.
  intros H w'. apply upload_voice_returns in H. fold w' in H.
  destruct H as (_ & _ & Hv & Hdb & _).
  unfold get_voice. run_monad. rewrite Hdb.
  replace (Voice.id voice) with (next_uuid w) by (rewrite Hv; reflexivity).
  now rewrite DictFacts.get_set_eq.
Qed.

(** X2. After a successful upload under an identifier not yet in use,
    [get_voices] lists the records that were there, in their order, and
    the new record last. *)
Theorem upload_appends_to_listing file name description language w voice :
  fst (upload_voice module_file file name description language w)
  = Return voice ->
  Dict.contains (next_uuid w) (voices_db w) = false ->
  let w' := snd (upload_voice module_file file name description language w) in
  fst (get_voices w') = Return (Dict.values (voices_db w) ++ [voice])%list.
Proof.
  intros H Hfresh w'. apply upload_voice_returns in H. fold w' in H.
  destruct H as (_ & _ & _ & Hdb & _).
  unfold get_voices, read. cbn [fst]. rewrite Hdb.
  rewrite (DictFacts.set_fresh _ _ _ Hfresh). unfold Dict.values.
  now rewrite List.map_app.
Qed.

(** X3. Uploading and then deleting the voice just created undoes the
    upload: the voice table is as before, and the files are the former
    ones without whatever was at the place of the upload. *)
Theorem upload_then_delete_restores file name description language w voice :
  fst (upload_voice module_file file name description language w)
  = Return voice ->
  Dict.contains (next_uuid w) (voices_db w) = false ->
  let w1 := snd (upload_voice module_file file name description language w) in
  let r := delete_voice (Voice.id voice) w1 in
  response_status 200 (fst r) = 200%Z
  /\ voices_db (snd r) = voices_db w
  /\ dirs (disk (snd r)) = dirs (disk w)
  /\ exists l,
       OS.locate (disk w) (stored_path module_file file w) = inr l
       /\ files (disk (snd r)) = delete l (files (disk w))
       /\ (files (disk w) !! l = None -> files (disk (snd r)) = files (disk w)).
Proof.
  intros Hret Hfresh w1 r.
  apply upload_voice_returns in Hret. fold w1 in Hret.
  destruct Hret as (_ & Hwrite & Hvoice & Hdb & _).
  assert (Hid : Voice.id voice = next_uuid w) by (rewrite Hvoice; reflexivity).
  apply write_file_inr in Hwrite. destruct Hwrite as (l & Hl & Hnd & Hdisk).
  assert (Hl1 : OS.locate (disk w1) (stored_path module_file file w) = inr l).
  { apply (locate_same_dirs (disk w)); [now rewrite Hdisk..|exact Hl]. }
  assert (Hback : backing_path voice = Some (stored_path module_file file w)).
  { unfold backing_path. rewrite Hvoice. cbn [Voice.file_path].
    rewrite to_str_nonempty by apply truediv_parts_ok, VOICES_DIR_parts_ok.
    now rewrite stored_path_reads_back. }
  assert (Hget : Dict.get (Voice.id voice) (voices_db w1) = Some voice).
  { rewrite Hdb, Hid. apply DictFacts.get_set_eq. }
  assert (Hnd1 : backing_is_dir (disk w1) voice = false).
  { unfold backing_is_dir. rewrite Hback, Hl1.
    rewrite (is_dir_same_dirs _ (disk w)); [exact Hnd | now rewrite Hdisk]. }
  destruct (delete_voice_present _ _ _ Hget Hnd1) as (Hok & _).
  destruct (delete_voice_effect _ _ _ Hget Hnd1)
    as (Hdb' & _ & Hdirs & _ & Hfiles).
  fold r in Hok, Hdb', Hdirs, Hfiles.
  rewrite Hback, Hl1 in Hfiles.
  split; [now rewrite Hok|].
  split; [rewrite Hdb', Hdb, Hid; now apply DictOrder.del_set_fresh|].
  split; [rewrite Hdirs; now rewrite Hdisk|].
  exists l. split; [exact Hl|].
  assert (Hf : files (disk (snd r)) = delete l (files (disk w))).
  { rewrite Hfiles, Hdisk. cbn [files]. apply delete_insert_eq. }
  split; [exact Hf|]. intros Hnone. rewrite Hf. now apply delete_id.
Qed.


(** X5. An upload is answered 400 only when its declared content type is
    missing or not in the allow-list. *)
Theorem upload_400_only_for_invalid_type file name description language w :
  response_status 201
    (fst (upload_voice module_file file name description language w)) = 400%Z ->
  match UploadFile.content_type file with
  | Some ct =>
      ct ∉ ["audio/wav"; "audio/mpeg"; "audio/mp3"; "audio/ogg"; "audio/flac"]
  | None => True
  end.
Proof.
  intros H.
  destruct (upload_voice_cases file name description language w)
    as [(Hv & _) | [(_ & e & _ & Hr & _) | (_ & voice & Hr)]].
  - destruct (UploadFile.content_type file) as [ct|] eqn:Hct; [|exact I].
    intros Hin. assert (Ht : validate_audio_file file = true)
      by (apply validate_audio_file_true; eauto).
    congruence.
  - rewrite Hr in H. discriminate.
  - rewrite Hr in H. discriminate.
Qed.

(** *** Synthesis *)


(** X7. A job is only created for a voice that is registered at the
    time of the call, and it records the request's voice and text. *)
Theorem synthesize_references_existing_voice request w job :
  fst (synthesize_speech module_file request w) = Return job ->
  Dict.contains (SynthesisResponse.voice_id job) (voices_db w) = true
  /\ SynthesisResponse.voice_id job = SynthesisRequest.voice_id request
  /\ SynthesisResponse.text job = SynthesisRequest.text request.
Proof.
  intros H. apply synthesize_speech_returns in H.
  destruct H as (Hc & _ & -> & _). cbn. auto.
Qed.

(** X8. A successful synthesis writes exactly one file: the placeholder,
    holding the request's text, voice, speed and pitch, directly under
    the audio directory; every other file, and every directory, is as
    before. *)
Theorem synthesize_writes_one_file request w job :
  fst (synthesize_speech module_file request w) = Return job ->
  let w' := snd (synthesize_speech module_file request w) in
  exists d,
    OS.locate (disk w) (AUDIO_DIR module_file) = inr d
    /\ files (disk w')
       = <[ (d ++ [("synthesis_" ++ next_uuid w ++ ".txt")%string])%list
            := Placeholder (next_uuid w) (SynthesisRequest.text request)
                 (SynthesisRequest.voice_id request)
                 (SynthesisRequest.speed request)
                 (SynthesisRequest.pitch request) (clock w (ticks w)) ]>
         (files (disk w))
    /\ dirs (disk w') = dirs (disk w).
Proof.
  intros H w'. apply synthesize_speech_returns in H. fold w' in H.
  destruct H as (_ & Hwrite & _).
  apply write_file_inr in Hwrite. destruct Hwrite as (l & Hl & _ & Hdisk).
  destruct (artifact_name_ok w) as [Hok Hdd].
  apply (locate_child _ _ _ _ Hok Hdd) in Hl. destruct Hl as (d & Hd & _ & ->).
  exists d. rewrite Hdisk. auto.
Qed.

(** X9. The artifact of a successful synthesis is served back: its URL
    is ["/audio/"] followed by the name of the file written, which embeds
    the first identifier drawn (the job's [id] is the second), and
    [serve_audio] answers that name with the file, as [text/plain]. *)
Theorem synthesized_artifact_is_served request w job :
  fst (synthesize_speech module_file request w) = Return job ->
  let w' := snd (synthesize_speech module_file request w) in
  let artifact := "synthesis_" ++ next_uuid w ++ ".txt" in
  SynthesisResponse.audio_url job = "/audio/" ++ artifact
  /\ SynthesisResponse.id job = second_uuid w
  /\ fst (serve_audio module_file artifact w')
     = Return (FileResponse.mk (AUDIO_DIR module_file // artifact)
                 "text/plain" artifact).
Proof.
  intros H w' artifact. apply synthesize_speech_returns in H. fold w' in H.
  destruct H as (_ & Hwrite & Hjob & _).
  split; [|split; [now rewrite Hjob|]].
  - rewrite Hjob. cbn [SynthesisResponse.audio_url].
    now rewrite artifact_path_parts, name_snoc.
  - apply write_file_inr in Hwrite. destruct Hwrite as (l & Hl & _ & Hdisk).
    unfold artifact_path in Hl. fold artifact in Hl.
    assert (Hex : OS.exists_ (disk w') (AUDIO_DIR module_file // artifact) = true).
    { unfold OS.exists_.
      rewrite (locate_same_dirs (disk w) (disk w') _ l);
        [|now rewrite Hdisk..|exact Hl].
      unfold OS.is_file. rewrite Hdisk. cbn [files].
      rewrite lookup_insert_eq, bool_decide_eq_true_2 by eauto.
      apply orb_true_r. }
    unfold serve_audio. run_monad. rewrite Hex. cbn [negb fst].
    do 2 f_equal.
    pose proof (artifact_path_parts module_file w) as Hp.
    unfold artifact_path in Hp. fold artifact in Hp. rewrite Hp.
    unfold artifact.
    change ("synthesis_" ++ next_uuid w ++ ".txt")
      with (("synthesis_" ++ next_uuid w) ++ ".txt").
    rewrite SuffixFacts.suffix_txt by reflexivity. reflexivity.
Qed.

(** X10. Among the bodies that carry [text] and [voice_id] as strings,
    and [speed] and [pitch], when given, as numbers (the values of
    [SynthesisRequest.body]), validation refuses only those that break a
    declared constraint: an empty text, a text of more than 5000
    characters, or a given speed or pitch that is not within [0.5, 2.0];
    leaving speed or pitch out is never a reason. *)
Theorem post_synthesize_rejects_only_invalid b w :
  fst (post_synthesize module_file b w) = Raise RequestValidationError ->
  String.length (SynthesisRequest.body_text b) = 0%nat
  \/ (5000 < String.length (SynthesisRequest.body_text b))%nat
  \/ (exists x, SynthesisRequest.body_speed b = Some x
        /\ (PrimFloat.leb 0.5 x && PrimFloat.leb x 2.0)%float = false)
  \/ (exists x, SynthesisRequest.body_pitch b = Some x
        /\ (PrimFloat.leb 0.5 x && PrimFloat.leb x 2.0)%float = false).
Proof.
  unfold post_synthesize.
  destruct (SynthesisRequest.validate b) as [request|] eqn:Hv.
  - intros H. exfalso.
    destruct (synthesize_speech_cases request w)
      as [(Hc & _) | [(_ & e & _ & Hr & _) | (_ & job & Hr)]].
    + rewrite (synthesize_speech_unknown _ _ _ Hc) in H. discriminate.
    + rewrite Hr in H. discriminate.
    + rewrite Hr in H. discriminate.
  - intros _. revert Hv.
    unfold SynthesisRequest.validate, SynthesisRequest.text_ok,
      SynthesisRequest.in_range.
    destruct (1 <=? String.length (SynthesisRequest.body_text b))%nat eqn:H1.
    2:{ intros _. left. apply Nat.leb_gt in H1. lia. }
    destruct (String.length (SynthesisRequest.body_text b) <=? 5000)%nat eqn:H2.
    2:{ intros _. right. left. now apply Nat.leb_gt. }
    cbn [andb].
    destruct (SynthesisRequest.body_speed b) as [x|];
      destruct (SynthesisRequest.body_pitch b) as [y|];
      cbn [default from_option id];
      repeat match goal with
        | |- context [(PrimFloat.leb 0.5 1 && PrimFloat.leb 1 2)%float] =>
            change (PrimFloat.leb 0.5 1 && PrimFloat.leb 1 2)%float with true
        end;
      cbn [andb].
    + destruct (PrimFloat.leb 0.5 x && PrimFloat.leb x 2)%float eqn:Hx;
        [|intros _; right; right; left; eauto].
      destruct (PrimFloat.leb 0.5 y && PrimFloat.leb y 2)%float eqn:Hy;
        [discriminate | intros _; right; right; right; eauto].
    + destruct (PrimFloat.leb 0.5 x && PrimFloat.leb x 2)%float eqn:Hx;
        [discriminate | intros _; right; right; left; eauto].
    + destruct (PrimFloat.leb 0.5 y && PrimFloat.leb y 2)%float eqn:Hy;
        [discriminate | intros _; right; right; right; eauto].
    + discriminate.
Qed.

(** X11. No request removes a job: an identifier that is a key of the job
    table is still one after any request has been served. *)
Theorem jobs_are_never_removed rq w k :
  Dict.contains k (synthesis_cache w) = true ->
  Dict.contains k (synthesis_cache (serve module_file rq w)) = true.
Proof.
  intros H. destruct (serve_synthesis_cache rq w) as [-> | (k' & job & ->)];
    [exact H|].
  apply DictFacts.contains_true. apply DictFacts.contains_true in H.
  destruct (String.eqb k' k) eqn:E.
  - apply String.eqb_eq in E. subst. rewrite DictFacts.get_set_eq. eauto.
  - apply String.eqb_neq in E. now rewrite DictFacts.get_set_ne.
Qed.

(** *** Serving artifacts *)

(** X12. For a file name that is a single plain component (no ['/'], not
    empty, not ["."] nor [".."]) and makes a path the operating system
    accepts (no NUL, at most 255 bytes in the name, and the whole path
    fits), [serve_audio] looks at the entry of that name in the audio
    directory and nowhere else: it returns a response whose path leads to
    that entry when the entry exists, and answers 404 when it does
    not. *)
Theorem serve_audio_plain_name filename w d :
  part_ok filename = true -> String.eqb filename ".." = false ->
  OS.path_ok (AUDIO_DIR module_file // filename) = true ->
  OS.locate (disk w) (AUDIO_DIR module_file) = inr d ->
  OS.is_dir (disk w) d = true ->
  let r := serve_audio module_file filename w in
  let entry := (d ++ [filename])%list in
  OS.locate (disk w) (AUDIO_DIR module_file // filename) = inr entry
  /\ (OS.is_dir (disk w) entry || OS.is_file (disk w) entry = true ->
      exists resp, fst r = Return resp
                   /\ OS.locate (disk w) (FileResponse.path resp) = inr entry)
  /\ (OS.is_dir (disk w) entry || OS.is_file (disk w) entry = false ->
      fst r = Raise (HTTPException 404 (Msg "Audio file not found"))).
Proof.
  intros Hok Hdd _ Hd Hdir r entry.
  assert (Hl : OS.locate (disk w) (AUDIO_DIR module_file // filename)
               = inr entry).
  { apply (locate_child _ _ _ _ Hok Hdd). eauto. }
  split; [exact Hl|].
  unfold r, serve_audio. run_monad. unfold OS.exists_. rewrite Hl.
  split; intros ->; cbn; eauto.
Qed.

(** *** The voice table over time *)

(** X13. In every world the service reaches, the voices [get_voices]
    lists have pairwise distinct identifiers. *)
Theorem reachable_ids_distinct w :
  reachable module_file w ->
  exists l, fst (get_voices w) = Return l /\ NoDup (List.map Voice.id l).
Proof.
  intros H. exists (Dict.values (voices_db w)). split; [reflexivity|].
  destruct (reachable_invariant module_file w H) as [Hok _].
  rewrite (registry_ok_keys _ Hok). now apply reachable_keys_distinct.
Qed.

(** X14. [health_check] counts follow the table: after a successful
    upload under an identifier not yet in use, the voice count it reports
    is one more than before, and the job count is the same. *)
Theorem health_count_after_upload file name description language w voice :
  fst (upload_voice module_file file name description language w)
  = Return voice ->
  Dict.contains (next_uuid w) (voices_db w) = false ->
  let w' := snd (upload_voice module_file file name description language w) in
  exists h h',
    fst (health_check w) = Return h /\ fst (health_check w') = Return h'
    /\ voice_count h' = S (voice_count h)
    /\ synthesis_count h' = synthesis_count h.
Proof.
  intros H Hfresh w'. apply upload_voice_returns in H. fold w' in H.
  destruct H as (_ & _ & _ & Hdb & Hcache).
  unfold health_check. run_monad. cbn [fst voices_db synthesis_cache].
  do 2 eexists. split; [reflexivity|]. split; [reflexivity|].
  cbn [voice_count synthesis_count]. rewrite Hdb, Hcache.
  rewrite (DictFacts.set_fresh _ _ _ Hfresh), length_app. cbn. split; [lia|auto].
Qed.

(** X15. In a reachable world, deleting a voice that is there makes the
    voice count [health_check] reports exactly one less. *)
Theorem health_count_after_delete voice_id w :
  reachable module_file w ->
  Dict.contains voice_id (voices_db w) = true ->
  exists h h',
    fst (health_check w) = Return h
    /\ fst (health_check (snd (delete_voice voice_id w))) = Return h'
    /\ S (voice_count h') = voice_count h.
Proof.
  intros Hreach Hc.
  destruct (reachable_invariant module_file w Hreach) as [_ Hback].
  apply DictFacts.contains_true in Hc as Hget. destruct Hget as [v Hget].
  assert (Hnd : backing_is_dir (disk w) v = false)
    by (apply (Hback voice_id); now apply DictFacts.get_In).
  destruct (delete_voice_effect _ _ _ Hget Hnd) as (Hdb & _).
  unfold health_check. run_monad. cbn [fst voices_db synthesis_cache].
  do 2 eexists. split; [reflexivity|]. split; [reflexivity|].
  cbn [voice_count]. rewrite Hdb.
  apply DictOrder.length_del; [now apply reachable_keys_distinct | exact Hc].
Qed.

(** X16. Deleting a voice touches no file but the one at its backing
    location: for a record without [file_path] (the built-in voice) the
    files are as before; otherwise they are the former ones without the
    entry the backing path leads to. *)
Theorem delete_voice_touches_only_backing_file voice_id w v :
  Dict.get voice_id (voices_db w) = Some v ->
  backing_is_dir (disk w) v = false ->
  let w' := snd (delete_voice voice_id w) in
  dirs (disk w') = dirs (disk w)
  /\ match backing_path v with
     | Some p =>
         match OS.locate (disk w) p with
         | inr l => files (disk w') = delete l (files (disk w))
         | inl _ => files (disk w') = files (disk w)
         end
     | None => files (disk w') = files (disk w)
     end
  /\ forall l, (forall p, backing_path v = Some p ->
                          OS.locate (disk w) p <> inr l) ->
               files (disk w') !! l = files (disk w) !! l.
Proof.
  intros Hget Hnd w'.
  destruct (delete_voice_effect _ _ _ Hget Hnd) as (_ & _ & Hd & _ & Hf).
  fold w' in Hd, Hf. split; [exact Hd|]. split; [exact Hf|].
  intros l Hl. destruct (backing_path v) as [p|]; [|now rewrite Hf].
  specialize (Hl p eq_refl).
  destruct (OS.locate (disk w) p) as [e|l']; [now rewrite Hf|].
  rewrite Hf. apply lookup_delete_ne. congruence.
Qed.

(** *** Status codes and read-only handlers *)

(** X17. No handler lets an exception through that is not an
    [HTTPException], and each raises only the codes written in it:
    [upload_voice] 400 or 500, [delete_voice] and [synthesize_speech] 404
    or 500, [get_voice] and [get_synthesis] 404, [serve_audio] 404 or
    500. *)
Theorem handlers_raise_only_http_exceptions w e :
  (forall file name description language,
     fst (upload_voice module_file file name description language w) = Raise e ->
     exists detail,
       e = HTTPException 400 detail \/ e = HTTPException 500 detail)
  /\ (forall voice_id,
        fst (delete_voice voice_id w) = Raise e ->
        exists detail,
          e = HTTPException 404 detail \/ e = HTTPException 500 detail)
  /\ (forall request,
        fst (synthesize_speech module_file request w) = Raise e ->
        exists detail,
          e = HTTPException 404 detail \/ e = HTTPException 500 detail)
  /\ (forall voice_id,
        fst (get_voice voice_id w) = Raise e ->
        exists detail, e = HTTPException 404 detail)
  /\ (forall synthesis_id,
        fst (get_synthesis synthesis_id w) = Raise e ->
        exists detail, e = HTTPException 404 detail)
  /\ (forall filename,
        fst (serve_audio module_file filename w) = Raise e ->
        exists detail,
          e = HTTPException 404 detail \/ e = HTTPException 500 detail).
Proof.
  repeat apply conj.
  - intros file name description language. unfold upload_voice. run_monad.
    destruct (validate_audio_file file); cbn [negb];
      [|cbn; intros [= <-]; eauto].
    cbn [disk].
    destruct (OS.write_file _ _ _); cbn; [intros [= <-]; eauto | discriminate].
  - intros voice_id. unfold delete_voice, voice_not_found. run_monad.
    destruct (Dict.contains voice_id (voices_db w)); cbn [negb];
      [|cbn; intros [= <-]; eauto].
    destruct (Dict.get voice_id (voices_db w)) as [voice|];
      [|cbn; intros [= <-]; eauto].
    destruct (Voice.file_path voice) as [fp|]; [|discriminate].
    destruct (truthy fp); [|discriminate].
    destruct (OS.exists_ _ _); [|discriminate].
    destruct (OS.unlink _ _); cbn; [intros [= <-]; eauto | discriminate].
  - intros request.
    unfold synthesize_speech, generate_synthesis_audio, voice_not_found.
    run_monad.
    destruct (Dict.contains _ _); cbn [negb]; [|cbn; intros [= <-]; eauto].
    cbn [disk].
    destruct (OS.write_file _ _ _); cbn; [intros [= <-]; eauto | discriminate].
  - intros voice_id. unfold get_voice, voice_not_found. run_monad.
    destruct (Dict.get _ _); cbn; [discriminate | intros [= <-]; eauto].
  - intros synthesis_id. unfold get_synthesis. run_monad.
    destruct (Dict.get _ _); cbn; [discriminate | intros [= <-]; eauto].
  - intros filename. unfold serve_audio. run_monad.
    destruct (OS.exists_ _ _); cbn; [discriminate | intros [= <-]; eauto].
Qed.

(** X18. The look-up handlers are read-only: [get_voices], [get_voice],
    [get_synthesis], [get_all_synthesis] and [serve_audio] return the
    world they were given, and [health_check] only reads the clock. *)
Theorem lookups_are_read_only w :
  snd (get_voices w) = w
  /\ (forall voice_id, snd (get_voice voice_id w) = w)
  /\ (forall synthesis_id, snd (get_synthesis synthesis_id w) = w)
  /\ snd (get_all_synthesis w) = w
  /\ (forall filename, snd (serve_audio module_file filename w) = w)
  /\ (let w' := snd (health_check w) in
      voices_db w' = voices_db w /\ synthesis_cache w' = synthesis_cache w
      /\ disk w' = disk w /\ drawn w' = drawn w /\ ticks w' = S (ticks w)).
Proof.
  repeat apply conj; try reflexivity.
  - intros voice_id. apply get_voice_frame.
  - intros synthesis_id. apply get_synthesis_frame.
  - intros filename. apply serve_audio_frame.
Qed.

(** *** Start-up *)

Lemma mkdir_parents_creates fs p fs' :
  OS.is_dir fs (cwd fs) = true ->
  OS.mkdir_parents fs p = inr fs' ->
  (exists l, OS.locate fs' p = inr l /\ OS.is_dir fs' l = true)
  /\ dirs fs ⊆ dirs fs' /\ files fs' = files fs /\ cwd fs' = cwd fs.
Proof.
  unfold OS.mkdir_parents, OS.locate. intros Hcwd H.
  assert (Hstart : OS.is_dir fs (if root p then [] else cwd fs) = true)
    by (destruct (root p); [reflexivity | exact Hcwd]).
  destruct (OS.mkdir_walk fs _ (parts p)) as [e|fs''] eqn:E; [discriminate|].
  injection H as <-.
  destruct (mkdir_walk_creates _ _ _ _ Hstart E) as (Hl & Hsub & Hf & Hc).
  rewrite Hc. auto.
Qed.

Lemma locate_mono fs1 fs2 p l :
  dirs fs1 ⊆ dirs fs2 -> cwd fs2 = cwd fs1 ->
  OS.locate fs1 p = inr l -> OS.locate fs2 p = inr l.
Proof. unfold OS.locate. intros Hsub ->. now apply walk_mono. Qed.

(** X19. When the import-time loop succeeds, the voices, audio and temp
    directories all exist as directories afterwards; no file and neither
    table has changed. *)
Theorem ensure_directories_creates_storage w :
  OS.is_dir (disk w) (cwd (disk w)) = true ->
  fst (ensure_directories module_file w) = Return tt ->
  let w' := snd (ensure_directories module_file w) in
  (forall D, In D [VOICES_DIR module_file; AUDIO_DIR module_file;
                   TEMP_DIR module_file] ->
             exists l, OS.locate (disk w') D = inr l
                       /\ OS.is_dir (disk w') l = true)
  /\ files (disk w') = files (disk w)
  /\ voices_db w' = voices_db w /\ synthesis_cache w' = synthesis_cache w.
Proof.
  intros Hcwd. unfold ensure_directories. run_monad. cbn [disk].
  destruct (OS.mkdir_parents (disk w) (VOICES_DIR module_file))
    as [e|fs1] eqn:E1; [discriminate|]. cbn [disk].
  destruct (mkdir_parents_creates _ _ _ Hcwd E1)
    as ((l1 & Hl1 & Hd1) & Hs1 & Hf1 & Hc1).
  assert (Hcwd1 : OS.is_dir fs1 (cwd fs1) = true)
    by (rewrite Hc1; now apply (is_dir_mono (disk w))).
  destruct (OS.mkdir_parents fs1 (AUDIO_DIR module_file))
    as [e|fs2] eqn:E2; [discriminate|]. cbn [disk].
  destruct (mkdir_parents_creates _ _ _ Hcwd1 E2)
    as ((l2 & Hl2 & Hd2) & Hs2 & Hf2 & Hc2).
  assert (Hcwd2 : OS.is_dir fs2 (cwd fs2) = true)
    by (rewrite Hc2; now apply (is_dir_mono fs1)).
  destruct (OS.mkdir_parents fs2 (TEMP_DIR module_file))
    as [e|fs3] eqn:E3; [discriminate|]. cbn [fst snd disk voices_db synthesis_cache].
  destruct (mkdir_parents_creates _ _ _ Hcwd2 E3)
    as ((l3 & Hl3 & Hd3) & Hs3 & Hf3 & Hc3).
  intros _. split; [|split; [congruence | auto]].
  intros D [<- | [<- | [<- | []]]].
  - exists l1. split.
    + apply (locate_mono fs2); [exact Hs3 | exact Hc3 |].
      now apply (locate_mono fs1).
    + apply (is_dir_mono fs2); [exact Hs3|]. now apply (is_dir_mono fs1).
  - exists l2. split.
    + now apply (locate_mono fs2).
    + now apply (is_dir_mono fs2).
  - eauto.
Qed.

(** X20. The import-time loop has [exist_ok]: when the three directories
    are already there, it succeeds and leaves the world as it is. *)
Theorem ensure_directories_idempotent w l1 l2 l3 :
  OS.locate (disk w) (VOICES_DIR module_file) = inr l1 ->
  OS.is_dir (disk w) l1 = true ->
  OS.locate (disk w) (AUDIO_DIR module_file) = inr l2 ->
  OS.is_dir (disk w) l2 = true ->
  OS.locate (disk w) (TEMP_DIR module_file) = inr l3 ->
  OS.is_dir (disk w) l3 = true ->
  ensure_directories module_file w = (Return tt, w).
Proof.
  unfold OS.locate. intros H1 D1 H2 D2 H3 D3.
  unfold ensure_directories. run_monad. unfold OS.mkdir_parents. cbn [disk].
  rewrite (mkdir_walk_existing _ _ _ _ H1 D1). cbn [disk].
  rewrite (mkdir_walk_existing _ _ _ _ H2 D2). cbn [disk].
  rewrite (mkdir_walk_existing _ _ _ _ H3 D3).
  now destruct w.
Qed.

(** X21. Whatever the table held, after [startup_event] the key
    ["default"] holds the built-in voice (no file, no duration, sample
    rate 22050), every other key, the job table and the disk being as
    before; and a synthesis asking for the voice ["default"] is then never
    answered 404. *)
Theorem startup_event_seeds_default w :
  let w' := snd (startup_event w) in
  Dict.get "default" (voices_db w')
  = Some (Voice.mk "default" "Default Voice"
            "Built-in default voice for testing" "en" (clock w (ticks w))
            None None (Some 22050%Z))
  /\ (forall k, k <> "default" ->
                Dict.get k (voices_db w') = Dict.get k (voices_db w))
  /\ synthesis_cache w' = synthesis_cache w
  /\ disk w' = disk w
  /\ (forall request,
        SynthesisRequest.voice_id request = "default" ->
        response_status 201 (fst (synthesize_speech module_file request w'))
        <> 404%Z).
Proof.
  intros w'.
  assert (Hget : Dict.get "default" (voices_db w')
                 = Some (Voice.mk "default" "Default Voice"
                           "Built-in default voice for testing" "en"
                           (clock w (ticks w)) None None (Some 22050%Z))).
  { unfold w', startup_event. run_monad. cbn [snd voices_db].
    apply DictFacts.get_set_eq. }
  split; [exact Hget|]. split; [|split; [reflexivity|split; [reflexivity|]]].
  - intros k Hk. unfold w', startup_event. run_monad. cbn [snd voices_db].
    apply DictFacts.get_set_ne. congruence.
  - intros request Hid.
    destruct (synthesize_speech_cases request w')
      as [(Hc & _) | [(_ & e & _ & -> & _) | (_ & job & ->)]];
      [|discriminate..].
    apply DictFacts.contains_false in Hc. rewrite Hid in Hc. congruence.
Qed.

End Coverage.

(** ** The identity of an uploaded voice *)

Section UploadIdentity.

Variable module_file : string.
Import PyStr PathLib StrFacts PathFacts UUIDFacts OSFacts.

(** *** What the handlers do to the entropy source *)

Lemma upload_voice_entropy file name description language w :
  let r := upload_voice module_file file name description language w in
  urandom (snd r) = urandom w
  /\ (drawn w <= drawn (snd r))%nat
  /\ (forall voice, fst r = Return voice -> drawn (snd r) = S (drawn w)).
Proof.
  cbn zeta. unfold upload_voice. run_monad.
  destruct (validate_audio_file file); cbn [negb].
  2:{ cbn. split; [reflexivity|]. split; [lia|]. intros voice H. discriminate. }
  cbn [disk].
  destruct (OS.write_file _ _ _) as [e|fs']; cbn;
    (split; [reflexivity|]; split; [lia|]; intros voice H;
     [discriminate || reflexivity]).
Qed.

Lemma delete_voice_entropy voice_id w :
  urandom (snd (delete_voice voice_id w)) = urandom w
  /\ drawn (snd (delete_voice voice_id w)) = drawn w.
Proof.
  unfold delete_voice. run_monad.
  destruct (Dict.contains voice_id (voices_db w)); cbn [negb]; [|auto].
  destruct (Dict.get voice_id (voices_db w)) as [voice|]; [|auto].
  destruct (Voice.file_path voice) as [fp|]; [|auto].
  destruct (truthy fp); [|auto].
  destruct (OS.exists_ _ _); [|auto].
  destruct (OS.unlink _ _); auto.
Qed.

Lemma post_synthesize_entropy b w :
  urandom (snd (post_synthesize module_file b w)) = urandom w
  /\ (drawn w <= drawn (snd (post_synthesize module_file b w)))%nat.
Proof.
  unfold post_synthesize.
  destruct (SynthesisRequest.validate b) as [request|]; [|cbn; auto].
  unfold synthesize_speech, generate_synthesis_audio. run_monad.
  destruct (Dict.contains _ _); cbn [negb]; [|cbn; auto].
  cbn [disk].
  destruct (OS.write_file _ _ _) as [e|fs']; cbn; split; auto; lia.
Qed.

(** *** The keys of the voice table are identifiers that were drawn *)

Lemma keys_are_draws_step w w' :
  urandom w' = urandom w -> (drawn w <= drawn w')%nat ->
  (forall k, In k (Dict.keys (voices_db w')) ->
             In k (Dict.keys (voices_db w))
             \/ (k = next_uuid w /\ (drawn w < drawn w')%nat)) ->
  keys_are_draws w -> keys_are_draws w'.
Proof.
  intros Hu Hd Hkeys Hw k Hin.
  assert (Hat : forall i, uuid_at w' i = uuid_at w i)
    by (intros i; unfold uuid_at; now rewrite Hu).
  destruct (Hkeys k Hin) as [Hold | [-> Hlt]].
  - destruct (Hw k Hold) as [-> | (i & Hi & ->)]; [now left|].
    right. exists i. split; [lia | now rewrite Hat].
  - right. exists (drawn w). split; [exact Hlt|]. now rewrite Hat.
Qed.

Theorem reachable_keys_are_draws w :
  reachable module_file w -> keys_are_draws w.
Proof.
  induction 1 as [w0 Hdb Hcache | w rq Hreach IH].
  - unfold startup_event. run_monad. intros k. cbn [snd voices_db].
    rewrite Hdb. cbn. intros [<-|[]]. now left.
  - destruct rq as [| | vid | file name description language | vid | b | sid | | fn];
      cbn [serve].
    + apply (keys_are_draws_step w); [reflexivity | apply le_n | auto | exact IH].
    + exact IH.
    + now rewrite get_voice_frame.
    + destruct (upload_voice_entropy file name description language w)
        as (Hu & Hd & Hret).
      apply (keys_are_draws_step w); [exact Hu | exact Hd | | exact IH].
      intros k Hin.
      destruct (upload_voice_frame module_file file name description language w)
        as (_ & _ & [Hdb | [voice Hv]]).
      * left. now rewrite <- Hdb.
      * specialize (Hret voice Hv).
        apply upload_voice_returns in Hv. destruct Hv as (_ & _ & _ & Hdb & _).
        rewrite Hdb, DictOrder.keys_set in Hin.
        destruct (Dict.contains (next_uuid w) (voices_db w)); [now left|].
        apply in_app_or in Hin. destruct Hin as [Hin | [<- | []]]; [now left|].
        right. split; [reflexivity | lia].
    + destruct (delete_voice_entropy vid w) as (Hu & Hd).
      apply (keys_are_draws_step w); [exact Hu | lia | | exact IH].
      intros k Hin. left.
      destruct (delete_voice_frame vid w) as (_ & _ & [Hdb | Hdb]);
        rewrite Hdb in Hin; [exact Hin|].
      now apply DictOrder.keys_del_In in Hin.
    + destruct (post_synthesize_entropy b w) as (Hu & Hd).
      apply (keys_are_draws_step w); [exact Hu | exact Hd | | exact IH].
      intros k Hin. left.
      destruct (post_synthesize_frame module_file b w) as (Hdb & _).
      now rewrite <- Hdb.
    + now rewrite get_synthesis_frame.
    + exact IH.
    + now rewrite serve_audio_frame.
Qed.

(** An identifier that repeats no earlier draw is not a key of the voice
    table. *)
Lemma new_draw_is_fresh w :
  keys_are_draws w -> draw_is_new w = true ->
  Dict.contains (next_uuid w) (voices_db w) = false.
Proof.
  intros Hkeys Hnew.
  destruct (Dict.contains (next_uuid w) (voices_db w)) eqn:C; [|reflexivity].
  exfalso. apply DictOrder.keys_In_contains in C.
  destruct (Hkeys _ C) as [Hdef | (i & Hi & Heq)].
  - exact (to_str_not_default _ Hdef).
  - unfold draw_is_new in Hnew. rewrite forallb_forall in Hnew.
    specialize (Hnew i). rewrite in_seq in Hnew.
    rewrite <- Heq, String.eqb_refl in Hnew.
    assert (H : negb true = true) by (apply Hnew; lia). discriminate.
Qed.

(** Filing a record under its own [id], in a consistent table with
    distinct keys, leaves it the only record of that [id]. *)
Lemma set_own_id_unique db v :
  registry_ok db = true -> NoDup (Dict.keys db) ->
  List.filter (fun v' => String.eqb (Voice.id v') (Voice.id v))
    (Dict.values (Dict.set (Voice.id v) v db)) = [v].
Proof.
  unfold registry_ok, Dict.values, Dict.keys.
  induction db as [|[k' v'] db IH]; cbn.
  - intros _ _. now rewrite String.eqb_refl.
  - rewrite andb_true_iff. intros [Hk Hdb] Hnd.
    apply String.eqb_eq in Hk. subst k'.
    apply NoDup_cons in Hnd. destruct Hnd as [Hnotin Hnd].
    destruct (String.eqb (Voice.id v) (Voice.id v')) eqn:E; cbn.
    + rewrite String.eqb_refl. f_equal.
      apply String.eqb_eq in E.
      apply registry_no_other; [exact Hdb|].
      destruct (Dict.contains (Voice.id v) db) eqn:C; [|reflexivity].
      exfalso. apply Hnotin. rewrite <- E.
      apply list_elem_of_In, DictOrder.keys_In_contains, C.
    + rewrite String.eqb_sym, E. now apply IH.
Qed.

(** C5 (amended). An upload that returns, in a world the service has
    reached: the record's [id] is the identifier [uuid4] draws at this
    call; the voice table files the record under it and lists no other
    record of that [id]; the [id] was not a key of the table before the
    call whenever the draw repeats none of the earlier ones; the uploaded
    bytes are in the file named by the [id] plus the lower-cased
    extension of the original file name ([".wav"] when it has none),
    directly under the voices directory; the recorded [file_path] reads
    back as that very path and a file exists there; [sample_rate] is
    22050. *)
Theorem upload_voice_stores_file file name description language w voice :
  reachable module_file w ->
  fst (upload_voice module_file file name description language w)
  = Return voice ->
  let w' := snd (upload_voice module_file file name description language w) in
  let file_name := Voice.id voice ++ lower (original_extension file) in
  Voice.id voice = next_uuid w
  /\ Dict.get (Voice.id voice) (voices_db w') = Some voice
  /\ List.filter (fun v => String.eqb (Voice.id v) (Voice.id voice))
       (Dict.values (voices_db w')) = [voice]
  /\ (draw_is_new w = true ->
      Dict.contains (Voice.id voice) (voices_db w) = false)
  /\ (exists d,
        OS.locate (disk w) (VOICES_DIR module_file) = inr d
        /\ OS.locate (disk w') (VOICES_DIR module_file // file_name)
           = inr (d ++ [file_name])%list
        /\ files (disk w') !! (d ++ [file_name])%list
           = Some (Bytes (UploadFile.content file)))
  /\ (exists fp,
        Voice.file_path voice = Some fp
        /\ of_str fp = VOICES_DIR module_file // file_name
        /\ OS.exists_ (disk w') (of_str fp) = true)
  /\ Voice.sample_rate voice = Some 22050%Z.
Proof.
  intros Hreach Hret w' file_name.
  destruct (reachable_invariant module_file w Hreach) as [Hok _].
  pose proof (reachable_keys_distinct module_file w Hreach) as Hnd.
  pose proof (reachable_keys_are_draws w Hreach) as Hkeys.
  apply upload_voice_returns in Hret. fold w' in Hret.
  destruct Hret as (_ & Hwrite & Hvoice & Hdb & _).
  assert (Hid : Voice.id voice = next_uuid w) by (rewrite Hvoice; reflexivity).
  assert (Hname : file_name = next_uuid w ++ stored_extension file)
    by (unfold file_name; now rewrite Hid, stored_extension_lower).
  clearbody file_name. subst file_name.
  fold (stored_path module_file file w).
  destruct (stored_name_ok file w) as [Hpart Hdd].
  apply write_file_inr in Hwrite. destruct Hwrite as (l & Hl & Hldir & Hdisk).
  apply (locate_child _ _ _ _ Hpart Hdd) in Hl as Hl'.
  destruct Hl' as (d & Hd & Hddir & ->).
  assert (Hl2 : OS.locate (disk w') (stored_path module_file file w)
                = inr (d ++ [(next_uuid w ++ stored_extension file)%string])%list).
  { apply (locate_same_dirs (disk w)); [now rewrite Hdisk..|exact Hl]. }
  assert (Hfile : files (disk w')
                  !! (d ++ [(next_uuid w ++ stored_extension file)%string])%list
                  = Some (Bytes (UploadFile.content file))).
  { rewrite Hdisk. cbn [files]. apply lookup_insert_eq. }
  split; [exact Hid|].
  split; [rewrite Hdb, Hid; apply DictFacts.get_set_eq|].
  split; [rewrite Hdb, <- Hid; now apply set_own_id_unique|].
  split; [intros Hnew; rewrite Hid; now apply new_draw_is_fresh|].
  split; [eauto|].
  split; [|rewrite Hvoice; reflexivity].
  exists (to_str (stored_path module_file file w)).
  rewrite stored_path_reads_back.
  split; [rewrite Hvoice; reflexivity|]. split; [reflexivity|].
  unfold OS.exists_. rewrite Hl2. unfold OS.is_file. rewrite Hfile.
  rewrite bool_decide_eq_true_2 by eauto. apply orb_true_r.
Qed.

End UploadIdentity.

(** ** The further properties at work on the concrete deployment *)

Module CoverageWitness.
Import Scenario.

Lemma upload_then_get_voice_witness :
  fst (upload_voice main_py a_wav "Custom Voice" "" "en" booted)
  = Return uploaded_voice
  /\ get_voice (Voice.id uploaded_voice) uploaded
     = (Return uploaded_voice, uploaded).
Proof.
  assert (H : fst (upload_voice main_py a_wav "Custom Voice" "" "en" booted)
              = Return uploaded_voice) by (vm_compute; reflexivity).
  split; [exact H|].
  exact (upload_then_get_voice main_py a_wav "Custom Voice" "" "en"
           booted uploaded_voice H).
Defined.

Lemma upload_appends_to_listing_witness :
  fst (upload_voice main_py a_wav "Custom Voice" "" "en" booted)
  = Return uploaded_voice
  /\ fst (get_voices uploaded)
     = Return (Dict.values (voices_db booted) ++ [uploaded_voice])%list.
Proof.
  assert (H : fst (upload_voice main_py a_wav "Custom Voice" "" "en" booted)
              = Return uploaded_voice) by (vm_compute; reflexivity).
  assert (Hfresh : Dict.contains (next_uuid booted) (voices_db booted) = false)
    by (vm_compute; reflexivity).
  split; [exact H|].
  exact (upload_appends_to_listing main_py a_wav "Custom Voice" "" "en"
           booted uploaded_voice H Hfresh).
Defined.

Lemma upload_then_delete_restores_witness :
  fst (upload_voice main_py a_wav "Custom Voice" "" "en" booted)
  = Return uploaded_voice
  /\ voices_db (snd (delete_voice (Voice.id uploaded_voice) uploaded))
     = voices_db booted.
Proof.
  assert (H : fst (upload_voice main_py a_wav "Custom Voice" "" "en" booted)
              = Return uploaded_voice) by (vm_compute; reflexivity).
  assert (Hfresh : Dict.contains (next_uuid booted) (voices_db booted) = false)
    by (vm_compute; reflexivity).
  split; [exact H|].
  destruct (upload_then_delete_restores main_py a_wav "Custom Voice" "" "en"
              booted uploaded_voice H Hfresh) as (_ & Hdb & _).
  exact Hdb.
Defined.


Lemma upload_400_only_for_invalid_type_witness :
  response_status 201
    (fst (upload_voice main_py notes_txt "Custom Voice" "" "en" booted))
  = 400%Z
  /\ "text/plain"
     ∉ ["audio/wav"; "audio/mpeg"; "audio/mp3"; "audio/ogg"; "audio/flac"].
Proof.
  assert (H : response_status 201
                (fst (upload_voice main_py notes_txt "Custom Voice" "" "en"
                        booted)) = 400%Z) by (vm_compute; reflexivity).
  split; [exact H|].
  exact (upload_400_only_for_invalid_type main_py notes_txt
           "Custom Voice" "" "en" booted H).
Defined.


Lemma synthesize_references_existing_voice_witness :
  fst (synthesize_speech main_py hello booted) = Return hello_job
  /\ Dict.contains (SynthesisResponse.voice_id hello_job) (voices_db booted)
     = true.
Proof.
  assert (H : fst (synthesize_speech main_py hello booted) = Return hello_job)
    by (vm_compute; reflexivity).
  split; [exact H|].
  destruct (synthesize_references_existing_voice main_py hello booted
              hello_job H) as (Hc & _).
  exact Hc.
Defined.

Lemma synthesize_writes_one_file_witness :
  fst (synthesize_speech main_py hello booted) = Return hello_job
  /\ dirs (disk synthesized) = dirs (disk booted).
Proof.
  assert (H : fst (synthesize_speech main_py hello booted) = Return hello_job)
    by (vm_compute; reflexivity).
  split; [exact H|].
  destruct (synthesize_writes_one_file main_py hello booted hello_job H)
    as (d & _ & _ & Hd).
  exact Hd.
Defined.

Lemma synthesized_artifact_is_served_witness :
  fst (synthesize_speech main_py hello booted) = Return hello_job
  /\ SynthesisResponse.audio_url hello_job
     = "/audio/" ++ "synthesis_" ++ next_uuid booted ++ ".txt".
Proof.
  assert (H : fst (synthesize_speech main_py hello booted) = Return hello_job)
    by (vm_compute; reflexivity).
  split; [exact H|].
  destruct (synthesized_artifact_is_served main_py hello booted hello_job H)
    as (Hurl & _).
  exact Hurl.
Defined.

Lemma post_synthesize_rejects_only_invalid_witness :
  fst (post_synthesize main_py too_fast booted) = Raise RequestValidationError
  /\ (String.length (SynthesisRequest.body_text too_fast) = 0%nat
      \/ (5000 < String.length (SynthesisRequest.body_text too_fast))%nat
      \/ (exists x, SynthesisRequest.body_speed too_fast = Some x
            /\ (PrimFloat.leb 0.5 x && PrimFloat.leb x 2.0)%float = false)
      \/ (exists x, SynthesisRequest.body_pitch too_fast = Some x
            /\ (PrimFloat.leb 0.5 x && PrimFloat.leb x 2.0)%float = false)).
Proof.
  assert (H : fst (post_synthesize main_py too_fast booted)
              = Raise RequestValidationError) by (vm_compute; reflexivity).
  split; [exact H|].
  exact (post_synthesize_rejects_only_invalid main_py too_fast booted H).
Defined.

Lemma jobs_are_never_removed_witness :
  Dict.contains (SynthesisResponse.id hello_job) (synthesis_cache synthesized)
  = true
  /\ Dict.contains (SynthesisResponse.id hello_job)
       (synthesis_cache (serve main_py (DeleteVoice "default") synthesized))
     = true.
Proof.
  assert (H : Dict.contains (SynthesisResponse.id hello_job)
                (synthesis_cache synthesized) = true)
    by (vm_compute; reflexivity).
  split; [exact H|].
  exact (jobs_are_never_removed main_py (DeleteVoice "default") synthesized
           (SynthesisResponse.id hello_job) H).
Defined.

Lemma serve_audio_plain_name_witness :
  PathLib.part_ok "does-not-exist.wav" = true
  /\ fst (serve_audio main_py "does-not-exist.wav" booted)
     = Raise (HTTPException 404 (Msg "Audio file not found")).
Proof.
  assert (Hok : PathLib.part_ok "does-not-exist.wav" = true) by reflexivity.
  assert (Hdd : String.eqb "does-not-exist.wav" ".." = false) by reflexivity.
  assert (Hd : OS.locate (disk booted) (AUDIO_DIR main_py)
               = inr ["srv"; "backend"; "storage"; "audio"])
    by (vm_compute; reflexivity).
  assert (Hdir : OS.is_dir (disk booted) ["srv"; "backend"; "storage"; "audio"]
                 = true) by (vm_compute; reflexivity).
  assert (Hlim : OS.path_ok (AUDIO_DIR main_py // "does-not-exist.wav") = true)
    by (vm_compute; reflexivity).
  split; [exact Hok|].
  destruct (serve_audio_plain_name main_py "does-not-exist.wav" booted _
              Hok Hdd Hlim Hd Hdir) as (_ & _ & Hmiss).
  apply Hmiss. vm_compute. reflexivity.
Defined.

Lemma reachable_ids_distinct_witness :
  exists l, fst (get_voices uploaded) = Return l
            /\ NoDup (List.map Voice.id l).
Proof.
  exact (reachable_ids_distinct main_py uploaded Deployed.uploaded_reachable).
Defined.

Lemma health_count_after_upload_witness :
  fst (upload_voice main_py a_wav "Custom Voice" "" "en" booted)
  = Return uploaded_voice
  /\ exists h h',
       fst (health_check booted) = Return h
       /\ fst (health_check uploaded) = Return h'
       /\ voice_count h' = S (voice_count h)
       /\ synthesis_count h' = synthesis_count h.
Proof.
  assert (H : fst (upload_voice main_py a_wav "Custom Voice" "" "en" booted)
              = Return uploaded_voice) by (vm_compute; reflexivity).
  assert (Hfresh : Dict.contains (next_uuid booted) (voices_db booted) = false)
    by (vm_compute; reflexivity).
  split; [exact H|].
  exact (health_count_after_upload main_py a_wav "Custom Voice" "" "en"
           booted uploaded_voice H Hfresh).
Defined.

Lemma health_count_after_delete_witness :
  Dict.contains "default" (voices_db uploaded) = true
  /\ exists h h',
       fst (health_check uploaded) = Return h
       /\ fst (health_check (snd (delete_voice "default" uploaded))) = Return h'
       /\ S (voice_count h') = voice_count h.
Proof.
  assert (H : Dict.contains "default" (voices_db uploaded) = true)
    by (vm_compute; reflexivity).
  split; [exact H|].
  exact (health_count_after_delete main_py "default" uploaded
           Deployed.uploaded_reachable H).
Defined.

Lemma delete_voice_touches_only_backing_file_witness :
  Dict.get "default" (voices_db uploaded)
  = Some (returned no_voice (get_voice "default" uploaded))
  /\ files (disk (snd (delete_voice "default" uploaded)))
     = files (disk uploaded).
Proof.
  assert (Hget : Dict.get "default" (voices_db uploaded)
                 = Some (returned no_voice (get_voice "default" uploaded)))
    by (vm_compute; reflexivity).
  assert (Hnd : backing_is_dir (disk uploaded)
                  (returned no_voice (get_voice "default" uploaded)) = false)
    by (vm_compute; reflexivity).
  assert (Hnone : backing_path
                    (returned no_voice (get_voice "default" uploaded)) = None)
    by (vm_compute; reflexivity).
  split; [exact Hget|].
  destruct (delete_voice_touches_only_backing_file "default" uploaded _
              Hget Hnd) as (_ & Hf & _).
  rewrite Hnone in Hf. exact Hf.
Defined.

Lemma ensure_directories_creates_storage_witness :
  OS.is_dir (disk blank) (cwd (disk blank)) = true
  /\ exists l, OS.locate (disk (snd (ensure_directories main_py blank)))
                 (AUDIO_DIR main_py) = inr l
               /\ OS.is_dir (disk (snd (ensure_directories main_py blank))) l
                  = true.
Proof.
  assert (Hcwd : OS.is_dir (disk blank) (cwd (disk blank)) = true)
    by (vm_compute; reflexivity).
  assert (Hret : fst (ensure_directories main_py blank) = Return tt)
    by (vm_compute; reflexivity).
  split; [exact Hcwd|].
  destruct (ensure_directories_creates_storage main_py blank Hcwd Hret)
    as (Hall & _).
  apply Hall. right. left. reflexivity.
Defined.

Lemma ensure_directories_idempotent_witness :
  ensure_directories main_py booted = (Return tt, booted).
Proof.
  apply (ensure_directories_idempotent main_py booted
           ["srv"; "backend"; "storage"; "voices"]
           ["srv"; "backend"; "storage"; "audio"]
           ["srv"; "backend"; "storage"; "temp"]);
    vm_compute; reflexivity.
Defined.


Lemma upload_voice_succeeds_witness :
  validate_audio_file a_wav = true
  /\ exists voice,
       fst (upload_voice main_py a_wav "Custom Voice" "" "en" booted)
       = Return voice.
Proof.
  assert (Hv : validate_audio_file a_wav = true) by (vm_compute; reflexivity).
  assert (Hd : OS.locate (disk booted) (VOICES_DIR main_py)
               = inr ["srv"; "backend"; "storage"; "voices"])
    by (vm_compute; reflexivity).
  assert (Hdir : OS.is_dir (disk booted) ["srv"; "backend"; "storage"; "voices"]
                 = true) by (vm_compute; reflexivity).
  assert (Hfree : OS.is_dir (disk booted)
                    (["srv"; "backend"; "storage"; "voices"]
                     ++ [(next_uuid booted ++ stored_extension a_wav)%string])%list
                  = false) by (vm_compute; reflexivity).
  assert (Hlim : OS.path_ok (stored_path main_py a_wav booted) = true)
    by (vm_compute; reflexivity).
  split; [exact Hv|].
  exact (upload_voice_succeeds main_py a_wav "Custom Voice" "" "en" booted _
           Hv Hlim Hd Hdir Hfree).
Defined.

Lemma reachable_delete_returns_witness :
  Dict.get (Voice.id uploaded_voice) (voices_db uploaded) = Some uploaded_voice
  /\ fst (delete_voice (Voice.id uploaded_voice) uploaded)
     = Return ("Voice '" ++ Voice.name uploaded_voice
               ++ "' deleted successfully").
Proof.
  assert (Hget : Dict.get (Voice.id uploaded_voice) (voices_db uploaded)
                 = Some uploaded_voice) by (vm_compute; reflexivity).
  split; [exact Hget|].
  exact (reachable_delete_returns main_py uploaded (Voice.id uploaded_voice)
           uploaded_voice Deployed.uploaded_reachable Hget).
Defined.

Lemma delete_voice_keeps_others_witness :
  "default" <> Voice.id uploaded_voice
  /\ Dict.get "default"
       (voices_db (snd (delete_voice (Voice.id uploaded_voice) uploaded)))
     = Dict.get "default" (voices_db uploaded).
Proof.
  assert (Hne : "default" <> Voice.id uploaded_voice)
    by (vm_compute; discriminate).
  split; [exact Hne|].
  exact (delete_voice_keeps_others (Voice.id uploaded_voice) uploaded
           "default" Hne).
Defined.

End CoverageWitness.

(** ** Uploads on the concrete deployment: extensions and identifiers *)

Module UploadDeployed.
Import Scenario.

Example stuck_reachable : reachable main_py stuck.
Proof.
  assert (H : stuck
              = snd (startup_event (snd (ensure_directories main_py stuck_blank))))
    by (vm_compute; reflexivity).
  rewrite H. apply reachable_startup; vm_compute; reflexivity.
Qed.

Example stuck_first_reachable : reachable main_py (snd stuck_first).
Proof.
  assert (H : snd stuck_first
              = serve main_py (PostVoices a_wav "First" "" "en") stuck)
    by (vm_compute; reflexivity).
  rewrite H. apply reachable_serve, stuck_reachable.
Qed.

(** C5, as stated, fails on two counts.  The extension of [A.WAV] is
    [.WAV], yet the file written is named by the identifier plus [.wav],
    and nothing exists under the name the claim gives.  And the
    identifier is whatever [uuid4] yields, unchecked: when the entropy
    source repeats itself, the second of two uploads is given the
    identifier of the first, which is a key of the voice table when the
    call is made, and its record takes the place of the first. *)
Lemma upload_lowers_extension_and_may_reuse_id :
  (fst (upload_voice main_py shouting_wav "Second Voice" "" "en" uploaded)
   = Return second_voice
   /\ original_extension shouting_wav = ".WAV"
   /\ Voice.file_path second_voice
      = Some (PathLib.to_str
                (VOICES_DIR main_py // (Voice.id second_voice ++ ".wav")))
   /\ Voice.file_path second_voice
      <> Some (PathLib.to_str
                 (VOICES_DIR main_py
                  // (Voice.id second_voice ++ original_extension shouting_wav)))
   /\ OS.exists_ (disk uploaded_again)
        (VOICES_DIR main_py
         // (Voice.id second_voice ++ original_extension shouting_wav)) = false)
  /\ (fst stuck_first = Return (returned no_voice stuck_first)
      /\ fst stuck_second = Return (returned no_voice stuck_second)
      /\ Voice.id (returned no_voice stuck_second)
         = Voice.id (returned no_voice stuck_first)
      /\ Dict.contains (Voice.id (returned no_voice stuck_second))
           (voices_db (snd stuck_first)) = true
      /\ Dict.get (Voice.id (returned no_voice stuck_first))
           (voices_db (snd stuck_first))
         = Some (returned no_voice stuck_first)
      /\ Dict.get (Voice.id (returned no_voice stuck_first))
           (voices_db (snd stuck_second))
         = Some (returned no_voice stuck_second)
      /\ Voice.name (returned no_voice stuck_first) = "First"
      /\ Voice.name (returned no_voice stuck_second) = "Second").
Proof.
  repeat apply conj; try (vm_compute; reflexivity).
  vm_compute. discriminate.
Qed.

(** On the working entropy source the second of two uploads draws a new
    identifier, which is therefore fresh. *)
Lemma upload_voice_stores_file_witness :
  fst (upload_voice main_py shouting_wav "Second Voice" "" "en" uploaded)
  = Return second_voice
  /\ draw_is_new uploaded = true
  /\ Dict.contains (Voice.id second_voice) (voices_db uploaded) = false
  /\ Dict.get (Voice.id second_voice) (voices_db uploaded_again)
     = Some second_voice
  /\ List.filter (fun v => String.eqb (Voice.id v) (Voice.id second_voice))
       (Dict.values (voices_db uploaded_again)) = [second_voice]
  /\ Voice.sample_rate second_voice = Some 22050%Z.
Proof.
  assert (H : fst (upload_voice main_py shouting_wav "Second Voice" "" "en"
                     uploaded) = Return second_voice)
    by (vm_compute; reflexivity).
  assert (Hnew : draw_is_new uploaded = true) by (vm_compute; reflexivity).
  split; [exact H|]. split; [exact Hnew|].
  destruct (upload_voice_stores_file main_py shouting_wav "Second Voice" ""
              "en" uploaded second_voice Deployed.uploaded_reachable H)
    as (_ & Hget & Hone & Hfresh & _ & _ & Hrate).
  split; [exact (Hfresh Hnew)|].
  split; [exact Hget|]. split; [exact Hone | exact Hrate].
Defined.

End UploadDeployed.
